(** * Milky Way main board v1.1: hardware abstraction layer

    A shallow embedding of [classes/StargateMilkyWay/electronics_mainboard_1v1.py]
    (class [ElectronicsMainBoard1V1]) and of the chevron table of [chevrons.py].

    The Python object [self] becomes a record that is threaded through every
    method; whatever lies outside the object (the two PWM chips, the SPI bus,
    the allocator that gives every constructed object its identity) is the
    record [world].  A method is a function from the pair of both to a result
    (a value or a raised exception) and the pair afterwards. *)

From Stdlib Require Import ZArith List Lia PrimFloat Uint63.
From stdpp Require Import gmap strings pretty.

Set Warnings "-inexact-float".
Local Open Scope Z_scope.

(** ** Exceptions and objects *)

(** The exceptions the methods can raise.  [ConfigurationError] is the failure
    of the configuration loader (see [board_cfg_get]); the others are Python's
    own. *)
Inductive exn : Type :=
| KeyError
| ValueError
| TypeError
| AttributeError
| ConfigurationError.

Inductive result (A : Type) : Type :=
| Ok (a : A)
| Raise (e : exn).
Arguments Ok {A} a.
Arguments Raise {A} e.

(** A PWM controller chip, [PCA9685(i2c, address=...)], and the [frequency]
    assigned to it ([None] until it is assigned). *)
Record PCA9685 : Type := mkPCA9685 { address : Z; frequency : option Z }.

(** [spidev.SpiDev(bus, device)] with its [max_speed_hz]. *)
Record SpiDev : Type := mkSpiDev { spi_bus : Z; spi_device : Z; max_speed_hz : Z }.

(** A PWM channel, [controller.channels[i]]: the bus address of the chip and
    the index.  Every index in the source is a literal between 0 and 15. *)
Definition channel : Type := (Z * Z)%type.

(** The objects the board hands out.  The first component is the identity of
    the object: the allocator gives every constructor call a fresh one, so two
    handles are the same Python object exactly when they are equal here. *)
Inductive obj : Type :=
| DCMotor (id : nat) (positive_pwm negative_pwm : channel)
| DCMotorSim (id : nat)
| StepperMotor (id : nat) (ain1 ain2 bin1 bin2 : channel) (microsteps : Z)
| StepperSim (id : nat)
| LED (id : nat) (pin : Z).

(** One assignment [controller.channels[i].duty_cycle = v]. *)
Record pwm_write : Type := mkWrite { w_chip : Z; w_channel : Z; w_duty : Z }.

Global Instance pwm_write_eq_dec : EqDecision pwm_write.
Proof. solve_decision. Defined.

(** The constants of [adafruit_motor.stepper] (imported as [stp]).  The library
    is not part of the sources, so its constants are parameters of the board. *)
Record adafruit_stepper : Type := mkStp {
  SINGLE : Z; DOUBLE : Z; INTERLEAVE : Z; MICROSTEP : Z;
  FORWARD : Z; BACKWARD : Z
}.

(** ** The world and the object *)

Record world : Type := mkWorld {
  next_id : nat;                              (* allocator of object identities *)
  pwm_log : list pwm_write;                   (* duty-cycle writes, oldest first *)
  spi_log : list (list Z);                    (* frames sent with xfer2, oldest first *)
  spi_reply : list (list Z) -> list Z -> list Z (* what the bus answers to a frame *)
}.

Record self : Type := mkSelf {
  stepper_motor_enable : bool;
  chevron_motors_enable : bool;
  board_cfg : gmap string Z;
  stp : adafruit_stepper;
  _pca_1 : option PCA9685;
  _pca_2 : option PCA9685;
  motor_channels : option (gmap Z obj);
  led_channels : option (gmap Z obj);
  stepper1 : option obj;
  drive_modes : option (gmap string Z);
  spi : option SpiDev;
  attrs : gmap string obj                     (* attributes made by setattr *)
}.

Definition state : Type := (self * world)%type.

(** Constants that [__init__] assigns once and nothing changes afterwards. *)
Definition _pca_1_addr : Z := 0x66.
Definition _pca_2_addr : Z := 0x6f.
Definition _pwm_frequency : Z := 1600.
Definition _stepper_microsteps : Z := 16.
Definition adc_resolution : Z := 10.
Definition adc_vref : float := 3.3%float.
Definition spi_bit_rate : Z := 1200000.
Definition spi_ch : Z := 1.

(** ** The state and exception monad *)

Record M (A : Type) : Type := mkM { run : state -> result A * state }.
Arguments mkM {A} run.
Arguments run {A} m st.

Definition ret {A} (a : A) : M A := mkM (fun st => (Ok a, st)).
Definition raise {A} (e : exn) : M A := mkM (fun st => (Raise e, st)).
Definition bind {A B} (c : M A) (k : A -> M B) : M B :=
  mkM (fun st => match run c st with
                 | (Ok a, st') => run (k a) st'
                 | (Raise e, st') => (Raise e, st')
                 end).

(** stdpp's notations [x ← c; k] and [c ;; k] are used for sequencing. *)
Global Instance M_ret : MRet M := @ret.
Global Instance M_bind : MBind M := fun A B k c => bind c k.

Definition get_self : M self := mkM (fun st => (Ok (fst st), st)).
Definition get_world : M world := mkM (fun st => (Ok (snd st), st)).
Definition modify_self (f : self -> self) : M unit :=
  mkM (fun st => (Ok tt, (f (fst st), snd st))).
Definition modify_world (f : world -> world) : M unit :=
  mkM (fun st => (Ok tt, (fst st, f (snd st)))).

(** [try: c except KeyError: h] *)
Definition try_except_KeyError {A} (c h : M A) : M A :=
  mkM (fun st => match run c st with
                 | (Raise KeyError, st') => run h st'
                 | r => r
                 end).

(** [d[k]] on a dict attribute that may still be [None]. *)
Definition getitem {K} `{Countable K} {V} (d : option (gmap K V)) (k : K) : M V :=
  match d with
  | None => raise TypeError
  | Some m => match m !! k with
              | Some v => ret v
              | None => raise KeyError
              end
  end.

(** ** Field updates *)

Definition set__pca_1 (v : option PCA9685) (s : self) : self :=
  mkSelf (stepper_motor_enable s) (chevron_motors_enable s) (board_cfg s) (stp s)
    v (_pca_2 s) (motor_channels s) (led_channels s) (stepper1 s)
    (drive_modes s) (spi s) (attrs s).
Definition set__pca_2 (v : option PCA9685) (s : self) : self :=
  mkSelf (stepper_motor_enable s) (chevron_motors_enable s) (board_cfg s) (stp s)
    (_pca_1 s) v (motor_channels s) (led_channels s) (stepper1 s)
    (drive_modes s) (spi s) (attrs s).
Definition set_motor_channels (v : option (gmap Z obj)) (s : self) : self :=
  mkSelf (stepper_motor_enable s) (chevron_motors_enable s) (board_cfg s) (stp s)
    (_pca_1 s) (_pca_2 s) v (led_channels s) (stepper1 s)
    (drive_modes s) (spi s) (attrs s).
Definition set_led_channels (v : option (gmap Z obj)) (s : self) : self :=
  mkSelf (stepper_motor_enable s) (chevron_motors_enable s) (board_cfg s) (stp s)
    (_pca_1 s) (_pca_2 s) (motor_channels s) v (stepper1 s)
    (drive_modes s) (spi s) (attrs s).
Definition set_stepper1 (v : option obj) (s : self) : self :=
  mkSelf (stepper_motor_enable s) (chevron_motors_enable s) (board_cfg s) (stp s)
    (_pca_1 s) (_pca_2 s) (motor_channels s) (led_channels s) v
    (drive_modes s) (spi s) (attrs s).
Definition set_drive_modes (v : option (gmap string Z)) (s : self) : self :=
  mkSelf (stepper_motor_enable s) (chevron_motors_enable s) (board_cfg s) (stp s)
    (_pca_1 s) (_pca_2 s) (motor_channels s) (led_channels s) (stepper1 s)
    v (spi s) (attrs s).
Definition set_spi (v : option SpiDev) (s : self) : self :=
  mkSelf (stepper_motor_enable s) (chevron_motors_enable s) (board_cfg s) (stp s)
    (_pca_1 s) (_pca_2 s) (motor_channels s) (led_channels s) (stepper1 s)
    (drive_modes s) v (attrs s).
Definition set_attrs (v : gmap string obj) (s : self) : self :=
  mkSelf (stepper_motor_enable s) (chevron_motors_enable s) (board_cfg s) (stp s)
    (_pca_1 s) (_pca_2 s) (motor_channels s) (led_channels s) (stepper1 s)
    (drive_modes s) (spi s) v.

(** ** The world's operations *)

(** A constructor call takes the next free identity. *)
Definition fresh : M nat :=
  w ← get_world;
  modify_world (fun w => mkWorld (S (next_id w)) (pwm_log w) (spi_log w) (spi_reply w));;
  ret (next_id w).

(** [ch.duty_cycle = v] *)
Definition set_duty_cycle (ch : channel) (v : Z) : M unit :=
  modify_world (fun w =>
    mkWorld (next_id w) (pwm_log w ++ [mkWrite (fst ch) (snd ch) v])
            (spi_log w) (spi_reply w)).

(** [self.spi.xfer2(msg)]: the frame goes out, the reply comes back. *)
Definition xfer2 (msg : list Z) : M (list Z) :=
  s ← get_self;
  match spi s with
  | None => raise AttributeError
  | Some _ =>
      w ← get_world;
      modify_world (fun w =>
        mkWorld (next_id w) (pwm_log w) (spi_log w ++ [msg]) (spi_reply w));;
      ret (spi_reply w (spi_log w) msg)
  end.

(** ** The analog sampler *)

(** [get_adc_by_channel], lines 171-192. *)
Definition get_adc_by_channel (adc_ch : Z) : M Z :=
  if negb (bool_decide (adc_ch ∈ [0; 1])) then raise ValueError else
  let msg := 3 (* 0b11 *) in
  let msg := Z.shiftl (Z.shiftl msg 1 + adc_ch) 5 in
  let msg := [msg; 0] in
  reply ← xfer2 msg;
  let adc_value := fold_left (fun adc_value byte => Z.shiftl adc_value 8 + byte) reply 0 in
  let adc_value := Z.shiftr adc_value 1 in
  ret adc_value.

(** Python's conversion of an [int] operand to [float]; exact below 2^53, and
    the sampler's values stay below 2^15. *)
Definition float_of_int (z : Z) : float :=
  match z with
  | Z0 => 0%float
  | Zpos _ => of_uint63 (Uint63.of_Z z)
  | Zneg p => PrimFloat.opp (of_uint63 (Uint63.of_Z (Zpos p)))
  end.

(** [adc_to_voltage], line 196:
    [(self.adc_vref * adc_value) / (2^self.adc_resolution)-1].
    In Python [^] is exclusive or, and [/] binds tighter than [-]. *)
Definition adc_to_voltage (adc_value : Z) : float :=
  PrimFloat.sub
    (PrimFloat.div (PrimFloat.mul adc_vref (float_of_int adc_value))
                   (float_of_int (Z.lxor 2 adc_resolution)))
    (float_of_int 1).

(** [get_homing_sensor_voltage], lines 204-205. *)
Definition get_homing_sensor_voltage : M float :=
  adc_value ← get_adc_by_channel 0;
  ret (adc_to_voltage adc_value).

(** The calibration formula in the specification's words:
    [Vref * raw / 2^resolution]. *)
Definition calibration_formula (raw : Z) : float :=
  PrimFloat.div (PrimFloat.mul adc_vref (float_of_int raw))
                (float_of_int (2 ^ adc_resolution)).

(** ** The motor and stepper factories *)

(** [_motor], lines 216-230.  The enable channel is written first, then the
    motor object is constructed and stored under the attribute name. *)
Definition _motor (controller : option PCA9685) (motor_name : Z)
    (channels : Z * Z * Z) : M obj :=
  let '(c0, c1, c2) := channels in
  let motor_name := "_motor" +:+ pretty motor_name in
  match controller with
  | None => raise AttributeError
  | Some pca =>
      set_duty_cycle (address pca, c0) 0xFFFF;;
      id ← fresh;
      modify_self (fun s =>
        set_attrs (<[motor_name := DCMotor id (address pca, c1) (address pca, c2)]> (attrs s)) s);;
      s ← get_self;
      match attrs s !! motor_name with
      | Some m => ret m
      | None => raise AttributeError
      end
  end.

(** The properties [motor1] .. [motor7], lines 232-258.  The tuple is
    (PWM, IN_POS, IN_NEG). *)
Definition motor1 : M obj := s ← get_self; _motor (_pca_2 s) 1 (9, 11, 10).
Definition motor2 : M obj := s ← get_self; _motor (_pca_2 s) 2 (6, 8, 7).
Definition motor3 : M obj := s ← get_self; _motor (_pca_2 s) 3 (3, 5, 4).
Definition motor4 : M obj := s ← get_self; _motor (_pca_2 s) 4 (0, 2, 1).
Definition motor5 : M obj := s ← get_self; _motor (_pca_1 s) 4 (12, 14, 13).
Definition motor6 : M obj := s ← get_self; _motor (_pca_1 s) 4 (5, 3, 4).
Definition motor7 : M obj := s ← get_self; _motor (_pca_1 s) 4 (0, 2, 1).

(** The property [stepper], lines 260-272.  [not self.stepper1] holds for
    [None] only: an object is true. *)
Definition stepper : M obj :=
  s ← get_self;
  match stepper1 s with
  | Some o => ret o
  | None =>
      match _pca_1 s with
      | None => raise AttributeError
      | Some pca =>
          let a := address pca in
          set_duty_cycle (a, 6) 0xFFFF;;
          set_duty_cycle (a, 11) 0xFFFF;;
          id ← fresh;
          let o := StepperMotor id (a, 8) (a, 7) (a, 9) (a, 10) _stepper_microsteps in
          modify_self (set_stepper1 (Some o));;
          ret o
      end
  end.

Definition new_DCMotorSim : M obj := id ← fresh; ret (DCMotorSim id).
Definition new_StepperSim : M obj := id ← fresh; ret (StepperSim id).
Definition new_LED (pin : Z) : M obj := id ← fresh; ret (LED id pin).

(** [PCA9685(self.i2c, address=a)] followed by [.frequency = f]. *)
Definition new_PCA9685 (a f : Z) : PCA9685 := mkPCA9685 a (Some f).

(** [init_motor_hardware], lines 80-119.  A dict display evaluates its values
    in order, so the seven properties run here, one after the other. *)
Definition init_motor_hardware : M unit :=
  modify_self (set__pca_1 (Some (new_PCA9685 _pca_1_addr _pwm_frequency)));;
  modify_self (set__pca_2 (Some (new_PCA9685 _pca_2_addr _pwm_frequency)));;
  s ← get_self;
  (if chevron_motors_enable s then
     m1 ← motor1; m2 ← motor2; m3 ← motor3; m4 ← motor4;
     m5 ← motor5; m6 ← motor6; m7 ← motor7;
     modify_self (set_motor_channels (Some
       {[ 1 := m1; 2 := m2; 3 := m3; 4 := m4; 5 := m5; 6 := m6; 7 := m7 ]}))
   else
     m1 ← new_DCMotorSim; m2 ← new_DCMotorSim; m3 ← new_DCMotorSim;
     m4 ← new_DCMotorSim; m5 ← new_DCMotorSim; m6 ← new_DCMotorSim;
     m7 ← new_DCMotorSim;
     modify_self (set_motor_channels (Some
       {[ 1 := m1; 2 := m2; 3 := m3; 4 := m4; 5 := m5; 6 := m6; 7 := m7 ]})));;
  s ← get_self;
  if stepper_motor_enable s then
    o ← stepper;
    modify_self (set_stepper1 (Some o))
  else
    o ← new_StepperSim;
    modify_self (set_stepper1 (Some o)).

(** [init_led_gpio], lines 121-136. *)
Definition init_led_gpio : M unit :=
  l1 ← new_LED 22; l2 ← new_LED 25; l3 ← new_LED 5; l4 ← new_LED 19;
  l5 ← new_LED 26; l6 ← new_LED 21; l7 ← new_LED 20;
  modify_self (set_led_channels (Some
    {[ 1 := l1; 2 := l2; 3 := l3; 4 := l4; 5 := l5; 6 := l6; 7 := l7 ]})).

(** [init_spi_for_adc], lines 164-169. *)
Definition init_spi_for_adc : M unit :=
  modify_self (set_spi (Some (mkSpiDev 0 spi_ch spi_bit_rate))).

(** ** The board facade *)

(** Modelled from the spec: [StargateConfig.get], the loader of the remap
    table, is not part of the sources.  It yields the integer stored under a
    key, and a key without an entry fails with ConfigurationError. *)
Definition board_cfg_get (key : string) : M Z :=
  s ← get_self;
  match board_cfg s !! key with
  | Some v => ret v
  | None => raise ConfigurationError
  end.

(** [get_chevron_led], lines 138-140. *)
Definition get_chevron_led (chevron_number : Z) : M obj :=
  channel ← board_cfg_get ("chevron_" +:+ pretty chevron_number +:+ "_led_channel");
  s ← get_self;
  getitem (led_channels s) channel.

(** [get_chevron_motor], lines 142-144. *)
Definition get_chevron_motor (chevron_number : Z) : M obj :=
  channel ← board_cfg_get ("chevron_" +:+ pretty chevron_number +:+ "_motor_channel");
  s ← get_self;
  getitem (motor_channels s) channel.

(** [get_stepper], lines 146-147. *)
Definition get_stepper : M obj := stepper.

Definition get_stepper_forward : M Z := s ← get_self; ret (FORWARD (stp s)).
Definition get_stepper_backward : M Z := s ← get_self; ret (BACKWARD (stp s)).

(** [get_stepper_drive_mode], lines 157-162. *)
Definition get_stepper_drive_mode (drive_mode : string) : M Z :=
  try_except_KeyError
    (s ← get_self; getitem (drive_modes s) drive_mode)
    (s ← get_self; getitem (drive_modes s) "double").

(** [homing_supported], lines 198-202. *)
Definition homing_supported : bool := false.

(** ** Construction *)

(** What [__init__] reads from the application: the two enable flags of
    [app.cfg], the loaded board configuration, and the stepper library. *)
Record App : Type := mkApp {
  app_stepper_motor_enable : bool;
  app_chevron_motors_enable : bool;
  app_board_cfg : gmap string Z;
  app_stp : adafruit_stepper
}.

(** The attributes as lines 21-58 leave them (the pins, the name, the logger
    and the pixel ring are left out: no method below reads them). *)
Definition new_self (app : App) : self :=
  mkSelf (app_stepper_motor_enable app) (app_chevron_motors_enable app)
         (app_board_cfg app) (app_stp app)
         None None None None None None None ∅.

(** [__init__] from line 60 on. *)
Definition __init__ : M unit :=
  init_motor_hardware;;
  init_led_gpio;;
  s ← get_self;
  modify_self (set_drive_modes (Some
    {[ "double" := DOUBLE (stp s); "single" := SINGLE (stp s);
       "interleave" := INTERLEAVE (stp s); "microstep" := MICROSTEP (stp s) ]}));;
  init_spi_for_adc.

(** A world in which nothing has happened yet. *)
Definition fresh_world (reply : list (list Z) -> list Z -> list Z) : world :=
  mkWorld 0 [] [] reply.

(** [ElectronicsMainBoard1V1(app)]: the state once the constructor returns. *)
Definition ElectronicsMainBoard1V1 (app : App) (w : world) : state :=
  snd (run __init__ (new_self app, w)).

(** The board of a process that has just started: constructed in a world in
    which nothing has happened, on a bus that answers with [reply]. *)
Definition boot (app : App) (reply : list (list Z) -> list Z -> list Z) : state :=
  ElectronicsMainBoard1V1 app (fresh_world reply).

(** ** The chevron table of chevrons.py *)

Record Chevron : Type := mkChevron { led_gpio : option Z; motor_number : Z }.

Definition chevrons : gmap Z Chevron :=
  {[ 1 := mkChevron (Some 21) 3;
     2 := mkChevron (Some 16) 4;
     3 := mkChevron (Some 20) 5;
     4 := mkChevron (Some 26) 6;
     5 := mkChevron (Some 6) 7;
     6 := mkChevron (Some 13) 8;
     7 := mkChevron (Some 19) 9;
     8 := mkChevron None 10;
     9 := mkChevron None 11 ]}.

(** ** Vocabulary of the statements *)

(** The facade calls a client can make once the board is constructed. *)
Inductive call : Type :=
| CallChevronLed (chevron_number : Z)
| CallChevronMotor (chevron_number : Z)
| CallStepper
| CallDriveMode (drive_mode : string)
| CallAdc (adc_ch : Z)
| CallHomingVoltage.

(** The state after one call (its result is dropped, raised or not). *)
Definition after_call (c : call) (st : state) : state :=
  match c with
  | CallChevronLed n => snd (run (get_chevron_led n) st)
  | CallChevronMotor n => snd (run (get_chevron_motor n) st)
  | CallStepper => snd (run get_stepper st)
  | CallDriveMode m => snd (run (get_stepper_drive_mode m) st)
  | CallAdc ch => snd (run (get_adc_by_channel ch) st)
  | CallHomingVoltage => snd (run get_homing_sensor_voltage st)
  end.

Definition after_calls (cs : list call) (st : state) : state :=
  fold_left (fun st c => after_call c st) cs st.

(** How often a channel's duty cycle was written. *)
Definition count_writes (ch : channel) (log : list pwm_write) : nat :=
  length (filter (fun w => w_chip w = fst ch ∧ w_channel w = snd ch) log).

(** The enable (PWM) channel of each motor channel: the chip and the first
    component of the tuple in [motor1] .. [motor7]. *)
Definition enable_channel (motor_channel : Z) : option channel :=
  match motor_channel with
  | 1 => Some (_pca_2_addr, 9)
  | 2 => Some (_pca_2_addr, 6)
  | 3 => Some (_pca_2_addr, 3)
  | 4 => Some (_pca_2_addr, 0)
  | 5 => Some (_pca_1_addr, 12)
  | 6 => Some (_pca_1_addr, 5)
  | 7 => Some (_pca_1_addr, 0)
  | _ => None
  end.

(** The channels a handle is bound to: the arguments of its constructor. *)
Definition channels_of (h : obj) : list channel :=
  match h with
  | DCMotor _ p n => [p; n]
  | StepperMotor _ a1 a2 b1 b2 _ => [a1; a2; b1; b2]
  | DCMotorSim _ | StepperSim _ | LED _ _ => []
  end.

(** The key of a remap entry, as the f-strings of lines 139 and 143 build it. *)
Definition led_key (n : Z) : string := "chevron_" +:+ pretty n +:+ "_led_channel".
Definition motor_key (n : Z) : string := "chevron_" +:+ pretty n +:+ "_motor_channel".

(** The frame [get_adc_by_channel] sends for a channel. *)
Definition adc_frame (adc_ch : Z) : list Z := [Z.shiftl (Z.shiftl 3 1 + adc_ch) 5; 0].

(** What a chevron lookup comes to, as a function of the remap table and the
    channel table alone (used to state that the lookups read and never write). *)
Definition lookup_channel (cfg : gmap string Z) (table : option (gmap Z obj))
    (key : string) : result obj :=
  match cfg !! key with
  | None => Raise ConfigurationError
  | Some ch =>
      match table with
      | None => Raise TypeError
      | Some m => match m !! ch with
                  | Some h => Ok h
                  | None => Raise KeyError
                  end
      end
  end.

(** Two states with the same object, the same duty-cycle writes and the same
    allocator: they can differ in the frames sent on the SPI bus only. *)
Definition same_board (st st' : state) : Prop :=
  fst st' = fst st
  ∧ pwm_log (snd st') = pwm_log (snd st)
  ∧ next_id (snd st') = next_id (snd st)
  ∧ spi_reply (snd st') = spi_reply (snd st).

(** Modelled from the spec: the classes of [hardware_simulation] and the
    methods of the motor library are not part of the sources.  By sections 3
    and 6 of the spec an operation on a handle (set throttle or direction)
    drives the channels the handle was built over, and a simulated handle
    touches no physical channel: it was built over none.  [duties] are the
    duty cycles the operation assigns, channel by channel. *)
Definition operate (h : obj) (duties : list Z) : M unit :=
  foldr (fun cv k => set_duty_cycle (fst cv) (snd cv);; k) (ret tt)
        (zip (channels_of h) duties).

(** ** Concrete boards *)

(** The values the motor library gives its constants. *)
Definition stp_lib : adafruit_stepper := mkStp 1 2 3 4 1 2.

(** A remap table: chevron 1 on channel 1, chevron 3 on motor channel 5,
    chevron 8 on channel 8, and no entry for chevron 9. *)
Definition example_cfg : gmap string Z :=
  {[ "chevron_1_led_channel" := 1; "chevron_1_motor_channel" := 1;
     "chevron_3_led_channel" := 3; "chevron_3_motor_channel" := 5;
     "chevron_8_led_channel" := 8; "chevron_8_motor_channel" := 8 ]}.

Definition example_app (stepper_enable motors_enable : bool) : App :=
  mkApp stepper_enable motors_enable example_cfg stp_lib.

(** A bus stub that answers every frame with the same bytes. *)
Definition constant_reply (bytes : list Z) : list (list Z) -> list Z -> list Z :=
  fun _ _ => bytes.

(** The reply bytes [0b01100000, 0b00000000]. *)
Definition fixture_reply : list Z := [0x60; 0x00].

Definition example_board (stepper_enable motors_enable : bool) (bytes : list Z) : state :=
  boot (example_app stepper_enable motors_enable) (constant_reply bytes).

(** ** Vocabulary of the further properties *)

(** The frame a facade call puts on the SPI bus of a constructed board, if it
    puts one: the sampler with a channel that passes the guard of line 175,
    and the homing voltage, which samples channel 0. *)
Definition frame_of_call (c : call) : option (list Z) :=
  match c with
  | CallAdc adc_ch => if bool_decide (adc_ch ∈ [0; 1]) then Some (adc_frame adc_ch) else None
  | CallHomingVoltage => Some (adc_frame 0)
  | _ => None
  end.




(** A boolean test on the [n] consecutive integers from [r] on. *)
Fixpoint forall_from (P : Z -> bool) (r : Z) (n : nat) : bool :=
  match n with
  | O => true
  | S n => P r && forall_from P (r + 1) n
  end.

(** The same application with another remap table. *)
Definition with_board_cfg (cfg : gmap string Z) (app : App) : App :=
  mkApp (app_stepper_motor_enable app) (app_chevron_motors_enable app) cfg (app_stp app).


(** ** The analog sampler: proofs *)

Lemma elem_of_01 (adc_ch : Z) : adc_ch ∈ [0; 1] ↔ adc_ch = 0 ∨ adc_ch = 1.
Proof.
  rewrite !elem_of_cons, elem_of_nil. tauto.
Qed.

(** A valid channel on an opened bus: one frame is sent, the reply is folded
    into one integer and shifted right by one. *)
Lemma get_adc_by_channel_valid (st : state) (adc_ch : Z) (d : SpiDev) :
  spi (fst st) = Some d ->
  adc_ch = 0 ∨ adc_ch = 1 ->
  run (get_adc_by_channel adc_ch) st =
    (Ok (Z.shiftr (fold_left (fun a b => Z.shiftl a 8 + b)
                     (spi_reply (snd st) (spi_log (snd st)) (adc_frame adc_ch)) 0) 1),
     (fst st, mkWorld (next_id (snd st)) (pwm_log (snd st))
                (spi_log (snd st) ++ [adc_frame adc_ch]) (spi_reply (snd st)))).
Proof.
  intros Hspi Hch. destruct st as [s w]. cbn in Hspi.
  unfold get_adc_by_channel.
  rewrite bool_decide_eq_true_2 by (apply elem_of_01; exact Hch).
  cbn. rewrite Hspi. reflexivity.
Qed.

Lemma get_adc_by_channel_invalid (st : state) (adc_ch : Z) :
  adc_ch ≠ 0 -> adc_ch ≠ 1 ->
  run (get_adc_by_channel adc_ch) st = (Raise ValueError, st).
Proof.
  intros H0 H1. unfold get_adc_by_channel.
  rewrite bool_decide_eq_false_2 by (rewrite elem_of_01; tauto).
  reflexivity.
Qed.

Lemma decode_two_bytes (b0 b1 : Z) :
  Z.shiftr (fold_left (fun a b => Z.shiftl a 8 + b) [b0; b1] 0) 1 = (b0 * 256 + b1) / 2.
Proof.
  cbn [fold_left]. rewrite Z.shiftr_div_pow2, !Z.shiftl_mul_pow2 by lia.
  f_equal.
Qed.

(** C1, at the inputs where the code leaves the claim.  Line 196 computes
    [Vref * r / (2 xor 10) - 1], which is [Vref * r / 8 - 1]: for the raw value
    0 the voltage is -1, below 0; for the full-scale raw value 1023 it is about
    420.99, above Vref; and on every raw value from 0 to 1023 it differs from
    [Vref * r / 2^10], the formula of the claim.  The homing voltage of a bus
    that answers zeros is -1 as well. *)
Theorem adc_to_voltage_off_formula :
  adc_to_voltage 0 = (-1)%float
  ∧ PrimFloat.ltb (adc_to_voltage 0) 0%float = true
  ∧ PrimFloat.ltb adc_vref (adc_to_voltage 1023) = true
  ∧ forallb (fun r => negb (PrimFloat.eqb (adc_to_voltage r) (calibration_formula r)))
            (map Z.of_nat (seq 0 1024)) = true
  ∧ fst (run get_homing_sensor_voltage (example_board false false [0; 0])) = Ok (-1)%float.
Proof.
  repeat split; vm_compute; reflexivity.
Qed.

(** C2, as stated, fails on the fixture: the decoded value of the reply
    [0b01100000, 0b00000000] is not [0b0110000000 >> 1] (which is 192). *)
Lemma fixture_decode_not_192 :
  fst (run (get_adc_by_channel 0) (example_board false false fixture_reply))
  ≠ Ok (Z.shiftr 384 1).
Proof.
  vm_compute. discriminate.
Qed.

(** C2, amended: on an opened bus that answers [0b01100000, 0b00000000], the
    sampler returns the sixteen-bit concatenation of the two bytes shifted
    right by one, [0b0110000000000000 >> 1], which is 12288. *)
Theorem fixture_decode (st : state) (adc_ch : Z) (d : SpiDev) :
  spi (fst st) = Some d ->
  adc_ch = 0 ∨ adc_ch = 1 ->
  spi_reply (snd st) (spi_log (snd st)) (adc_frame adc_ch) = fixture_reply ->
  fst (run (get_adc_by_channel adc_ch) st) = Ok (Z.shiftr 0x6000 1)
  ∧ Z.shiftr 0x6000 1 = 12288.
Proof.
  intros Hspi Hch Hreply.
  rewrite (get_adc_by_channel_valid st adc_ch d Hspi Hch), Hreply.
  split; reflexivity.
Qed.

Lemma fixture_decode_witness :
  fst (run (get_adc_by_channel 0) (example_board false false fixture_reply))
    = Ok (Z.shiftr 0x6000 1)
  ∧ Z.shiftr 0x6000 1 = 12288.
Proof.
  apply (fixture_decode (example_board false false fixture_reply) 0
           (mkSpiDev 0 spi_ch spi_bit_rate)).
  - reflexivity.
  - left. reflexivity.
  - reflexivity.
Defined.

(** C3, as stated, fails: the reply [0xFF, 0xFF] decodes to 32767, which is
    above 1023. *)
Lemma full_scale_reply_exceeds_10_bits :
  ¬ (∃ v, fst (run (get_adc_by_channel 0) (example_board false false [255; 255])) = Ok v
          ∧ 0 <= v <= 2 ^ adc_resolution - 1).
Proof.
  intros [v [Hv Hrange]]. vm_compute in Hv. injection Hv as <-.
  vm_compute in Hrange. destruct Hrange as [_ Hle]. apply Hle. reflexivity.
Qed.

(** C3, amended: for every two-byte reply (each byte in 0..255) the sampler
    returns [(256 * b0 + b1) / 2], a value in 0..32767 (fifteen bits); it lies
    in 0..1023 exactly when the first byte is at most 7, that is when its five
    upper bits are clear. *)
Theorem get_adc_by_channel_range (st : state) (adc_ch b0 b1 : Z) (d : SpiDev) :
  spi (fst st) = Some d ->
  adc_ch = 0 ∨ adc_ch = 1 ->
  spi_reply (snd st) (spi_log (snd st)) (adc_frame adc_ch) = [b0; b1] ->
  0 <= b0 <= 255 -> 0 <= b1 <= 255 ->
  ∃ v, fst (run (get_adc_by_channel adc_ch) st) = Ok v
       ∧ v = (b0 * 256 + b1) / 2
       ∧ 0 <= v <= 2 ^ 15 - 1
       ∧ (v <= 2 ^ adc_resolution - 1 ↔ b0 <= 7).
Proof.
  intros Hspi Hch Hreply Hb0 Hb1.
  rewrite (get_adc_by_channel_valid st adc_ch d Hspi Hch), Hreply.
  eexists. split; [reflexivity|]. cbn [fst].
  rewrite decode_two_bytes. unfold adc_resolution.
  split; [reflexivity|].
  change (2 ^ 15 - 1) with 32767. change (2 ^ 10 - 1) with 1023.
  split; [|split]; Z.to_euclidean_division_equations; lia.
Qed.

Lemma get_adc_by_channel_range_witness :
  ∃ v, fst (run (get_adc_by_channel 1) (example_board true true [3; 255])) = Ok v
       ∧ v = (3 * 256 + 255) / 2
       ∧ 0 <= v <= 2 ^ 15 - 1
       ∧ (v <= 2 ^ adc_resolution - 1 ↔ 3 <= 7).
Proof.
  apply (get_adc_by_channel_range (example_board true true [3; 255]) 1 3 255
           (mkSpiDev 0 spi_ch spi_bit_rate)).
  - reflexivity.
  - right. reflexivity.
  - reflexivity.
  - lia.
  - lia.
Defined.

(** C5: a channel argument other than 0 and 1 makes [get_adc_by_channel] raise
    ValueError, and nothing is sent: the state, the log of frames on the bus
    included, is what it was. *)
Theorem get_adc_by_channel_rejects (st : state) (adc_ch : Z) :
  adc_ch ≠ 0 -> adc_ch ≠ 1 ->
  run (get_adc_by_channel adc_ch) st = (Raise ValueError, st)
  ∧ spi_log (snd (snd (run (get_adc_by_channel adc_ch) st))) = spi_log (snd st).
Proof.
  intros H0 H1. rewrite (get_adc_by_channel_invalid st adc_ch H0 H1).
  split; reflexivity.
Qed.

Lemma get_adc_by_channel_rejects_witness :
  (run (get_adc_by_channel 2) (example_board true true fixture_reply)
     = (Raise ValueError, example_board true true fixture_reply)
   ∧ spi_log (snd (snd (run (get_adc_by_channel 2) (example_board true true fixture_reply))))
     = spi_log (snd (example_board true true fixture_reply)))
  ∧ (run (get_adc_by_channel (-1)) (example_board true true fixture_reply)
     = (Raise ValueError, example_board true true fixture_reply)
   ∧ spi_log (snd (snd (run (get_adc_by_channel (-1)) (example_board true true fixture_reply))))
     = spi_log (snd (example_board true true fixture_reply))).
Proof.
  split.
  - apply (get_adc_by_channel_rejects (example_board true true fixture_reply) 2); discriminate.
  - apply (get_adc_by_channel_rejects (example_board true true fixture_reply) (-1)); discriminate.
Defined.

(** ** The facade reads, the constructor writes *)

Lemma get_chevron_led_run (n : Z) (st : state) :
  run (get_chevron_led n) st =
    (lookup_channel (board_cfg (fst st)) (led_channels (fst st)) (led_key n), st).
Proof.
  destruct st as [s w]. unfold lookup_channel, led_key. cbn.
  destruct (board_cfg s !! _); [|reflexivity]. cbn.
  destruct (led_channels s) as [m|]; [|reflexivity]. cbn.
  destruct (m !! _); reflexivity.
Qed.

Lemma get_chevron_motor_run (n : Z) (st : state) :
  run (get_chevron_motor n) st =
    (lookup_channel (board_cfg (fst st)) (motor_channels (fst st)) (motor_key n), st).
Proof.
  destruct st as [s w]. unfold lookup_channel, motor_key. cbn.
  destruct (board_cfg s !! _); [|reflexivity]. cbn.
  destruct (motor_channels s) as [m|]; [|reflexivity]. cbn.
  destruct (m !! _); reflexivity.
Qed.

Lemma get_stepper_drive_mode_frame (name : string) (st : state) :
  snd (run (get_stepper_drive_mode name) st) = st.
Proof.
  destruct st as [s w]. cbn.
  destruct (drive_modes s) as [m|] eqn:Hm; cbn; [|reflexivity].
  destruct (m !! name); cbn; [reflexivity|].
  rewrite Hm. cbn. destruct (m !! "double"); reflexivity.
Qed.

Lemma get_stepper_cached (st : state) (o : obj) :
  stepper1 (fst st) = Some o -> run get_stepper st = (Ok o, st).
Proof.
  destruct st as [s w]. cbn. intros ->. reflexivity.
Qed.

Lemma same_board_refl (st : state) : same_board st st.
Proof. repeat split. Qed.

Lemma same_board_trans (st1 st2 st3 : state) :
  same_board st1 st2 -> same_board st2 st3 -> same_board st1 st3.
Proof.
  intros (H1 & H2 & H3 & H4) (K1 & K2 & K3 & K4).
  repeat split; congruence.
Qed.

Lemma get_adc_by_channel_same_board (adc_ch : Z) (st : state) :
  same_board st (snd (run (get_adc_by_channel adc_ch) st)).
Proof.
  destruct (decide (adc_ch = 0 ∨ adc_ch = 1)) as [Hch|Hch].
  - destruct (spi (fst st)) as [d|] eqn:Hspi.
    + rewrite (get_adc_by_channel_valid st adc_ch d Hspi Hch). repeat split.
    + destruct st as [s w]. cbn in Hspi. unfold get_adc_by_channel.
      rewrite bool_decide_eq_true_2 by (apply elem_of_01; exact Hch).
      cbn. rewrite Hspi. repeat split.
  - rewrite get_adc_by_channel_invalid by tauto. apply same_board_refl.
Qed.

Lemma get_homing_sensor_voltage_same_board (st : state) :
  same_board st (snd (run get_homing_sensor_voltage st)).
Proof.
  pose proof (get_adc_by_channel_same_board 0 st) as H.
  unfold get_homing_sensor_voltage, mbind, M_bind, bind. cbn [run].
  destruct (run (get_adc_by_channel 0) st) as [[v|e] st']; exact H.
Qed.

(** One facade call on a board whose stepper handle exists changes nothing
    but the frames on the SPI bus. *)
Lemma after_call_same_board (c : call) (st : state) :
  is_Some (stepper1 (fst st)) -> same_board st (after_call c st).
Proof.
  intros [o Ho]. destruct c; cbn [after_call].
  - rewrite get_chevron_led_run. apply same_board_refl.
  - rewrite get_chevron_motor_run. apply same_board_refl.
  - rewrite (get_stepper_cached st o Ho). apply same_board_refl.
  - rewrite get_stepper_drive_mode_frame. apply same_board_refl.
  - apply get_adc_by_channel_same_board.
  - apply get_homing_sensor_voltage_same_board.
Qed.

(** And so does any sequence of facade calls. *)
Lemma after_calls_same_board (cs : list call) (st : state) :
  is_Some (stepper1 (fst st)) -> same_board st (after_calls cs st).
Proof.
  revert st. induction cs as [|c cs IH]; intros st Hst.
  - apply same_board_refl.
  - cbn [after_calls fold_left].
    pose proof (after_call_same_board c st Hst) as Hc.
    apply (same_board_trans _ _ _ Hc). apply IH.
    destruct Hc as [-> _]. exact Hst.
Qed.

(** ** The board after construction *)

Lemma dict7_lookup {V} (v1 v2 v3 v4 v5 v6 v7 : V) (c : Z) :
  ({[ 1 := v1; 2 := v2; 3 := v3; 4 := v4; 5 := v5; 6 := v6; 7 := v7 ]} : gmap Z V) !! c
  = match c with
    | 1 => Some v1 | 2 => Some v2 | 3 => Some v3 | 4 => Some v4
    | 5 => Some v5 | 6 => Some v6 | 7 => Some v7 | _ => None
    end.
Proof.
  rewrite !lookup_insert, lookup_singleton.
  repeat case_decide; subst; try reflexivity.
  destruct c as [|p|p]; try reflexivity.
  do 3 (destruct p as [p|p|]; try reflexivity; try congruence).
Qed.

Lemma dict7_lookup_outside {V} (v1 v2 v3 v4 v5 v6 v7 : V) (c : Z) :
  ¬ (1 <= c <= 7) ->
  ({[ 1 := v1; 2 := v2; 3 := v3; 4 := v4; 5 := v5; 6 := v6; 7 := v7 ]} : gmap Z V) !! c
  = None.
Proof.
  intros Hc. rewrite dict7_lookup.
  destruct c as [|p|p]; try reflexivity.
  do 3 (destruct p as [p|p|]; try reflexivity; try lia).
Qed.

Lemma dict7_dom {V} (v1 v2 v3 v4 v5 v6 v7 : V) :
  dom ({[ 1 := v1; 2 := v2; 3 := v3; 4 := v4; 5 := v5; 6 := v6; 7 := v7 ]} : gmap Z V)
  = ({[ 1; 2; 3; 4; 5; 6; 7 ]} : gset Z).
Proof.
  rewrite !dom_insert_L, dom_singleton_L. set_solver.
Qed.

Lemma one_to_seven (c : Z) :
  1 <= c <= 7 -> c = 1 ∨ c = 2 ∨ c = 3 ∨ c = 4 ∨ c = 5 ∨ c = 6 ∨ c = 7.
Proof. lia. Qed.

(** The constructor runs to its end. *)
Lemma boot_returns (app : App) (reply : list (list Z) -> list Z -> list Z) :
  fst (run __init__ (new_self app, fresh_world reply)) = Ok tt.
Proof.
  destruct app as [b1 b2 cfg lib]. destruct b1, b2; reflexivity.
Qed.

Lemma boot_board_cfg (app : App) (reply : list (list Z) -> list Z -> list Z) :
  board_cfg (fst (boot app reply)) = app_board_cfg app.
Proof.
  destruct app as [b1 b2 cfg lib]. destruct b1, b2; reflexivity.
Qed.

Lemma boot_motor_channels (app : App) (reply : list (list Z) -> list Z -> list Z) :
  motor_channels (fst (boot app reply))
  = Some (if app_chevron_motors_enable app then
            {[ 1 := DCMotor 0 (_pca_2_addr, 11) (_pca_2_addr, 10);
               2 := DCMotor 1 (_pca_2_addr, 8) (_pca_2_addr, 7);
               3 := DCMotor 2 (_pca_2_addr, 5) (_pca_2_addr, 4);
               4 := DCMotor 3 (_pca_2_addr, 2) (_pca_2_addr, 1);
               5 := DCMotor 4 (_pca_1_addr, 14) (_pca_1_addr, 13);
               6 := DCMotor 5 (_pca_1_addr, 3) (_pca_1_addr, 4);
               7 := DCMotor 6 (_pca_1_addr, 2) (_pca_1_addr, 1) ]}
          else
            {[ 1 := DCMotorSim 0; 2 := DCMotorSim 1; 3 := DCMotorSim 2;
               4 := DCMotorSim 3; 5 := DCMotorSim 4; 6 := DCMotorSim 5;
               7 := DCMotorSim 6 ]}).
Proof.
  destruct app as [b1 b2 cfg lib]. destruct b1, b2; reflexivity.
Qed.

Lemma boot_led_channels (app : App) (reply : list (list Z) -> list Z -> list Z) :
  led_channels (fst (boot app reply))
  = Some {[ 1 := LED 8 22; 2 := LED 9 25; 3 := LED 10 5; 4 := LED 11 19;
            5 := LED 12 26; 6 := LED 13 21; 7 := LED 14 20 ]}.
Proof.
  destruct app as [b1 b2 cfg lib]. destruct b1, b2; reflexivity.
Qed.

Lemma boot_stepper1 (app : App) (reply : list (list Z) -> list Z -> list Z) :
  stepper1 (fst (boot app reply))
  = Some (if app_stepper_motor_enable app then
            StepperMotor 7 (_pca_1_addr, 8) (_pca_1_addr, 7) (_pca_1_addr, 9)
              (_pca_1_addr, 10) _stepper_microsteps
          else StepperSim 7).
Proof.
  destruct app as [b1 b2 cfg lib]. destruct b1, b2; reflexivity.
Qed.

Lemma boot_drive_modes (app : App) (reply : list (list Z) -> list Z -> list Z) :
  drive_modes (fst (boot app reply))
  = Some {[ "double" := DOUBLE (app_stp app); "single" := SINGLE (app_stp app);
            "interleave" := INTERLEAVE (app_stp app);
            "microstep" := MICROSTEP (app_stp app) ]}.
Proof.
  destruct app as [b1 b2 cfg lib]. destruct b1, b2; reflexivity.
Qed.

(** The duty-cycle writes of the constructor: the seven enable channels of the
    motors when the motors are enabled, then the two enable channels of the
    stepper when the stepper is enabled. *)
Lemma boot_pwm_log (app : App) (reply : list (list Z) -> list Z -> list Z) :
  pwm_log (snd (boot app reply))
  = (if app_chevron_motors_enable app then
       [mkWrite _pca_2_addr 9 0xFFFF; mkWrite _pca_2_addr 6 0xFFFF;
        mkWrite _pca_2_addr 3 0xFFFF; mkWrite _pca_2_addr 0 0xFFFF;
        mkWrite _pca_1_addr 12 0xFFFF; mkWrite _pca_1_addr 5 0xFFFF;
        mkWrite _pca_1_addr 0 0xFFFF]
     else [])
    ++ (if app_stepper_motor_enable app then
          [mkWrite _pca_1_addr 6 0xFFFF; mkWrite _pca_1_addr 11 0xFFFF]
        else []).
Proof.
  destruct app as [b1 b2 cfg lib]. destruct b1, b2; reflexivity.
Qed.

Lemma boot_stepper1_is_Some (app : App) (reply : list (list Z) -> list Z -> list Z) :
  is_Some (stepper1 (fst (boot app reply))).
Proof. rewrite boot_stepper1. eexists. reflexivity. Qed.

(** Facade calls after construction leave the object, the duty-cycle writes
    and the allocator as the constructor left them. *)
Lemma after_calls_boot (app : App) (reply : list (list Z) -> list Z -> list Z)
    (cs : list call) :
  same_board (boot app reply) (after_calls cs (boot app reply)).
Proof. apply after_calls_same_board, boot_stepper1_is_Some. Qed.

Lemma get_stepper_drive_mode_run (name : string) (st : state) (m : gmap string Z) :
  drive_modes (fst st) = Some m ->
  run (get_stepper_drive_mode name) st
  = (match m !! name with
     | Some c => Ok c
     | None => match m !! "double" with
               | Some c => Ok c
               | None => Raise KeyError
               end
     end, st).
Proof.
  destruct st as [s w]. cbn. intros Hm. rewrite Hm. cbn.
  destruct (m !! name); cbn; [reflexivity|].
  rewrite Hm. cbn. destruct (m !! "double"); reflexivity.
Qed.

(** ** Chevron motors *)

(** C4, as stated, fails on a board whose chevron motors are disabled: chevron
    1 is mapped to motor channel 1, [get_chevron_motor 1] is called twice, and
    the enable channel of motor channel 1 has not been written once: it has
    not been written at all. *)
Lemma disabled_motors_no_enable_write :
  ¬ (∃ h e,
       fst (run (get_chevron_motor 1) (example_board false false [])) = Ok h
       ∧ fst (run (get_chevron_motor 1)
                (after_call (CallChevronMotor 1) (example_board false false []))) = Ok h
       ∧ enable_channel 1 = Some e
       ∧ count_writes e
           (pwm_log (snd (after_calls [CallChevronMotor 1; CallChevronMotor 1]
                            (example_board false false [])))) = 1%nat).
Proof.
  intros (h & e & _ & _ & He & Hcount).
  injection He as <-. vm_compute in Hcount. discriminate.
Qed.

(** C4, amended: for a chevron whose remap entry is one of the channels 1..7,
    [get_chevron_motor] returns the same handle right after construction and
    after any sequence of facade calls, and changes nothing when it does; the
    duty-cycle writes stay those of the constructor, among which the enable
    channel of that motor channel occurs exactly once when
    [chevron_motors_enable] is set, and never when it is not. *)
Theorem get_chevron_motor_cached (app : App)
    (reply : list (list Z) -> list Z -> list Z) (n ch : Z) (cs : list call) :
  app_board_cfg app !! motor_key n = Some ch ->
  1 <= ch <= 7 ->
  ∃ h e,
    run (get_chevron_motor n) (boot app reply) = (Ok h, boot app reply)
    ∧ run (get_chevron_motor n) (after_calls cs (boot app reply))
      = (Ok h, after_calls cs (boot app reply))
    ∧ pwm_log (snd (after_calls cs (boot app reply))) = pwm_log (snd (boot app reply))
    ∧ enable_channel ch = Some e
    ∧ count_writes e (pwm_log (snd (after_calls cs (boot app reply))))
      = (if app_chevron_motors_enable app then 1 else 0)%nat.
Proof.
  intros Hcfg Hch.
  destruct (after_calls_boot app reply cs) as (Hself & Hlog & _).
  rewrite !get_chevron_motor_run, Hself, Hlog.
  unfold lookup_channel.
  rewrite boot_board_cfg, Hcfg, boot_motor_channels, boot_pwm_log.
  destruct app as [b1 b2 cfg lib]. cbn [app_chevron_motors_enable app_stepper_motor_enable].
  destruct (one_to_seven ch Hch) as [->|[->|[->|[->|[->|[->| ->]]]]]];
    destruct b1, b2; rewrite dict7_lookup; do 2 eexists;
    repeat split; reflexivity.
Qed.

Lemma get_chevron_motor_cached_witness :
  ∃ h e,
    run (get_chevron_motor 3) (boot (example_app true true) (constant_reply [3; 255]))
    = (Ok h, boot (example_app true true) (constant_reply [3; 255]))
    ∧ run (get_chevron_motor 3)
        (after_calls [CallChevronMotor 3; CallAdc 0; CallStepper]
           (boot (example_app true true) (constant_reply [3; 255])))
      = (Ok h, after_calls [CallChevronMotor 3; CallAdc 0; CallStepper]
                 (boot (example_app true true) (constant_reply [3; 255])))
    ∧ pwm_log (snd (after_calls [CallChevronMotor 3; CallAdc 0; CallStepper]
                      (boot (example_app true true) (constant_reply [3; 255]))))
      = pwm_log (snd (boot (example_app true true) (constant_reply [3; 255])))
    ∧ enable_channel 5 = Some e
    ∧ count_writes e
        (pwm_log (snd (after_calls [CallChevronMotor 3; CallAdc 0; CallStepper]
                         (boot (example_app true true) (constant_reply [3; 255])))))
      = (if app_chevron_motors_enable (example_app true true) then 1 else 0)%nat.
Proof.
  apply (get_chevron_motor_cached (example_app true true) (constant_reply [3; 255]) 3 5
           [CallChevronMotor 3; CallAdc 0; CallStepper]).
  - reflexivity.
  - lia.
Defined.

(** C7, as stated, fails: on a board with the chevron motors enabled, right
    after construction and before any request, motor channel 1 already holds a
    motor object and its enable channel has already been written. *)
Lemma motors_exist_before_first_request :
  ¬ ((∀ m, motor_channels (fst (example_board false true [])) = Some m -> m !! 1 = None)
     ∧ count_writes (_pca_2_addr, 9) (pwm_log (snd (example_board false true []))) = 0%nat).
Proof.
  intros [_ Hcount]. vm_compute in Hcount. discriminate.
Qed.

(** C7, amended: motor handles are constructed by the constructor of the
    board.  When it returns, each of the motor channels 1..7 holds its handle:
    with [chevron_motors_enable] set a motor object, whose enable channel has
    been written exactly once, and otherwise a simulated motor, with no write.
    The facade calls made afterwards construct nothing and write no duty
    cycle. *)
Theorem motors_constructed_at_boot (app : App)
    (reply : list (list Z) -> list Z -> list Z) (c : Z) (cs : list call) :
  1 <= c <= 7 ->
  ∃ m h e,
    fst (run __init__ (new_self app, fresh_world reply)) = Ok tt
    ∧ motor_channels (fst (boot app reply)) = Some m
    ∧ m !! c = Some h
    ∧ enable_channel c = Some e
    ∧ (if app_chevron_motors_enable app
       then (∃ id p n, h = DCMotor id p n)
            ∧ count_writes e (pwm_log (snd (boot app reply))) = 1%nat
       else (∃ id, h = DCMotorSim id)
            ∧ count_writes e (pwm_log (snd (boot app reply))) = 0%nat)
    ∧ same_board (boot app reply) (after_calls cs (boot app reply)).
Proof.
  intros Hc.
  rewrite boot_returns, boot_motor_channels, boot_pwm_log.
  pose proof (after_calls_boot app reply cs) as Hsame.
  destruct app as [b1 b2 cfg lib].
  cbn [app_chevron_motors_enable app_stepper_motor_enable].
  destruct (one_to_seven c Hc) as [->|[->|[->|[->|[->|[->| ->]]]]]];
    destruct b1, b2; do 3 eexists;
    (split; [reflexivity|]); (split; [reflexivity|]);
    (split; [rewrite dict7_lookup; reflexivity|]);
    (split; [reflexivity|]);
    (split; [|exact Hsame]);
    (split; [repeat eexists|reflexivity]).
Qed.

Lemma motors_constructed_at_boot_witness :
  ∃ m h e,
    fst (run __init__ (new_self (example_app false true), fresh_world (constant_reply [])))
      = Ok tt
    ∧ motor_channels (fst (boot (example_app false true) (constant_reply []))) = Some m
    ∧ m !! 4 = Some h
    ∧ enable_channel 4 = Some e
    ∧ (if app_chevron_motors_enable (example_app false true)
       then (∃ id p n, h = DCMotor id p n)
            ∧ count_writes e
                (pwm_log (snd (boot (example_app false true) (constant_reply [])))) = 1%nat
       else (∃ id, h = DCMotorSim id)
            ∧ count_writes e
                (pwm_log (snd (boot (example_app false true) (constant_reply [])))) = 0%nat)
    ∧ same_board (boot (example_app false true) (constant_reply []))
        (after_calls [CallChevronMotor 1; CallChevronLed 1]
           (boot (example_app false true) (constant_reply []))).
Proof.
  apply (motors_constructed_at_boot (example_app false true) (constant_reply []) 4
           [CallChevronMotor 1; CallChevronLed 1]).
  lia.
Defined.

(** ** Chevrons without a usable remap entry *)

(** C8: for a chevron with no remap entry, [get_chevron_led] and
    [get_chevron_motor] fail with ConfigurationError, in any state of the
    board, and the state after the failed lookup is the state before it. *)
Theorem chevron_without_remap_entry (n : Z) (st : state) :
  (board_cfg (fst st) !! led_key n = None ->
   run (get_chevron_led n) st = (Raise ConfigurationError, st))
  ∧ (board_cfg (fst st) !! motor_key n = None ->
     run (get_chevron_motor n) st = (Raise ConfigurationError, st)).
Proof.
  split; intros Hcfg.
  - rewrite get_chevron_led_run. unfold lookup_channel. rewrite Hcfg. reflexivity.
  - rewrite get_chevron_motor_run. unfold lookup_channel. rewrite Hcfg. reflexivity.
Qed.

Lemma chevron_without_remap_entry_witness :
  run (get_chevron_led 9) (example_board true true [])
    = (Raise ConfigurationError, example_board true true [])
  ∧ run (get_chevron_motor 9) (example_board true true [])
    = (Raise ConfigurationError, example_board true true []).
Proof.
  split.
  - apply (proj1 (chevron_without_remap_entry 9 (example_board true true []))).
    reflexivity.
  - apply (proj2 (chevron_without_remap_entry 9 (example_board true true []))).
    reflexivity.
Defined.

(** C10: the chevron table has the nine keys 1..9, the board registers its
    motor and LED channels under the seven keys 1..7, and a remap entry whose
    value lies outside 1..7 makes [get_chevron_led] and [get_chevron_motor]
    fail with KeyError on the channel table (the state stays as it was); a
    lookup that succeeds went through a remap entry within 1..7. *)
Theorem remap_outside_registered_channels (app : App)
    (reply : list (list Z) -> list Z -> list Z) (n ch : Z) :
  ¬ (1 <= ch <= 7) ->
  dom chevrons = ({[ 1; 2; 3; 4; 5; 6; 7; 8; 9 ]} : gset Z)
  ∧ (∃ m l, motor_channels (fst (boot app reply)) = Some m
            ∧ led_channels (fst (boot app reply)) = Some l
            ∧ dom m = ({[ 1; 2; 3; 4; 5; 6; 7 ]} : gset Z)
            ∧ dom l = ({[ 1; 2; 3; 4; 5; 6; 7 ]} : gset Z))
  ∧ (app_board_cfg app !! led_key n = Some ch ->
     run (get_chevron_led n) (boot app reply) = (Raise KeyError, boot app reply))
  ∧ (app_board_cfg app !! motor_key n = Some ch ->
     run (get_chevron_motor n) (boot app reply) = (Raise KeyError, boot app reply))
  ∧ (∀ k h, fst (run (get_chevron_led k) (boot app reply)) = Ok h ->
            ∃ c, app_board_cfg app !! led_key k = Some c ∧ 1 <= c <= 7)
  ∧ (∀ k h, fst (run (get_chevron_motor k) (boot app reply)) = Ok h ->
            ∃ c, app_board_cfg app !! motor_key k = Some c ∧ 1 <= c <= 7).
Proof.
  intros Hch.
  split.
  { unfold chevrons. rewrite !dom_insert_L, dom_singleton_L. set_solver. }
  split.
  { rewrite boot_motor_channels, boot_led_channels. do 2 eexists.
    split; [reflexivity|]. split; [reflexivity|].
    split; [destruct (app_chevron_motors_enable app)|]; apply dict7_dom. }
  split.
  { intros Hcfg. rewrite get_chevron_led_run. unfold lookup_channel.
    rewrite boot_board_cfg, Hcfg, boot_led_channels.
    rewrite dict7_lookup_outside by exact Hch. reflexivity. }
  split.
  { intros Hcfg. rewrite get_chevron_motor_run. unfold lookup_channel.
    rewrite boot_board_cfg, Hcfg, boot_motor_channels.
    destruct (app_chevron_motors_enable app);
      rewrite dict7_lookup_outside by exact Hch; reflexivity. }
  split.
  - intros k h. rewrite get_chevron_led_run. unfold lookup_channel. cbn [fst].
    rewrite boot_board_cfg, boot_led_channels.
    destruct (app_board_cfg app !! led_key k) as [c|]; [|discriminate].
    intros Hok. exists c. split; [reflexivity|].
    destruct (decide (1 <= c <= 7)) as [Hin|Hout]; [exact Hin|].
    rewrite dict7_lookup_outside in Hok by exact Hout. discriminate.
  - intros k h. rewrite get_chevron_motor_run. unfold lookup_channel. cbn [fst].
    rewrite boot_board_cfg, boot_motor_channels.
    destruct (app_board_cfg app !! motor_key k) as [c|]; [|discriminate].
    intros Hok. exists c. split; [reflexivity|].
    destruct (decide (1 <= c <= 7)) as [Hin|Hout]; [exact Hin|].
    destruct (app_chevron_motors_enable app);
      rewrite dict7_lookup_outside in Hok by exact Hout; discriminate.
Qed.

Lemma remap_outside_registered_channels_witness :
  run (get_chevron_led 8) (boot (example_app true true) (constant_reply []))
    = (Raise KeyError, boot (example_app true true) (constant_reply []))
  ∧ run (get_chevron_motor 8) (boot (example_app true true) (constant_reply []))
    = (Raise KeyError, boot (example_app true true) (constant_reply [])).
Proof.
  assert (H8 : ¬ (1 <= 8 <= 7)) by lia.
  destruct (remap_outside_registered_channels (example_app true true)
              (constant_reply []) 8 8 H8) as (_ & _ & Hled & Hmotor & _).
  split.
  - apply Hled. reflexivity.
  - apply Hmotor. reflexivity.
Defined.

(** ** The stepper *)

(** C9: on a board constructed with [stepper_motor_enable] false,
    [get_stepper] returns the simulated stepper that the constructor made, at
    any time and without changing anything; an operation on that handle
    writes no duty cycle; the duty-cycle writes after any facade calls are
    those of the constructor, each of which is the enable write of one of the
    motor channels 1..7 (none comes from the stepper), and there is none at
    all when the chevron motors are disabled too. *)
Theorem disabled_stepper_is_simulated (app : App)
    (reply : list (list Z) -> list Z -> list Z) (cs : list call) (duties : list Z) :
  app_stepper_motor_enable app = false ->
  ∃ id,
    stepper1 (fst (boot app reply)) = Some (StepperSim id)
    ∧ run get_stepper (after_calls cs (boot app reply))
      = (Ok (StepperSim id), after_calls cs (boot app reply))
    ∧ run (operate (StepperSim id) duties) (after_calls cs (boot app reply))
      = (Ok tt, after_calls cs (boot app reply))
    ∧ pwm_log (snd (after_calls cs (boot app reply))) = pwm_log (snd (boot app reply))
    ∧ (∀ w, w ∈ pwm_log (snd (boot app reply)) ->
            ∃ c, 1 <= c <= 7 ∧ enable_channel c = Some (w_chip w, w_channel w))
    ∧ (app_chevron_motors_enable app = false ->
       pwm_log (snd (after_calls cs (boot app reply))) = []).
Proof.
  intros Hoff.
  destruct (after_calls_boot app reply cs) as (Hself & Hlog & _).
  pose proof (boot_stepper1 app reply) as Hst. rewrite Hoff in Hst.
  exists 7%nat.
  split; [exact Hst|].
  split; [apply get_stepper_cached; rewrite Hself; exact Hst|].
  split; [reflexivity|].
  split; [exact Hlog|].
  rewrite Hlog, boot_pwm_log, Hoff, app_nil_r.
  split.
  - destruct (app_chevron_motors_enable app); intros w Hw.
    + repeat (apply elem_of_cons in Hw as [->|Hw]);
        [exists 1|exists 2|exists 3|exists 4|exists 5|exists 6|exists 7|];
        try (split; [lia|reflexivity]).
      apply elem_of_nil in Hw. destruct Hw.
    + apply elem_of_nil in Hw. destruct Hw.
  - intros ->. reflexivity.
Qed.

Lemma disabled_stepper_is_simulated_witness :
  ∃ id,
    stepper1 (fst (boot (example_app false true) (constant_reply []))) = Some (StepperSim id)
    ∧ run get_stepper
        (after_calls [CallStepper; CallStepper]
           (boot (example_app false true) (constant_reply [])))
      = (Ok (StepperSim id),
         after_calls [CallStepper; CallStepper]
           (boot (example_app false true) (constant_reply [])))
    ∧ run (operate (StepperSim id) [0xFFFF; 0; 0xFFFF; 0])
        (after_calls [CallStepper; CallStepper]
           (boot (example_app false true) (constant_reply [])))
      = (Ok tt, after_calls [CallStepper; CallStepper]
                  (boot (example_app false true) (constant_reply [])))
    ∧ pwm_log (snd (after_calls [CallStepper; CallStepper]
                      (boot (example_app false true) (constant_reply []))))
      = pwm_log (snd (boot (example_app false true) (constant_reply [])))
    ∧ (∀ w, w ∈ pwm_log (snd (boot (example_app false true) (constant_reply []))) ->
            ∃ c, 1 <= c <= 7 ∧ enable_channel c = Some (w_chip w, w_channel w))
    ∧ (app_chevron_motors_enable (example_app false true) = false ->
       pwm_log (snd (after_calls [CallStepper; CallStepper]
                       (boot (example_app false true) (constant_reply [])))) = []).
Proof.
  apply (disabled_stepper_is_simulated (example_app false true) (constant_reply [])
           [CallStepper; CallStepper] [0xFFFF; 0; 0xFFFF; 0]).
  reflexivity.
Defined.

(** C6: whenever the motor library's four constants are pairwise distinct, the
    lookup maps "double", "single", "interleave" and "microstep" to them, so
    to four distinct values, and a name outside the table gets what "double"
    gets; no lookup raises. *)
Theorem drive_mode_lookup (app : App)
    (reply : list (list Z) -> list Z -> list Z) (name : string) :
  NoDup [DOUBLE (app_stp app); SINGLE (app_stp app);
         INTERLEAVE (app_stp app); MICROSTEP (app_stp app)] ->
  fst (run (get_stepper_drive_mode "double") (boot app reply)) = Ok (DOUBLE (app_stp app))
  ∧ fst (run (get_stepper_drive_mode "single") (boot app reply)) = Ok (SINGLE (app_stp app))
  ∧ fst (run (get_stepper_drive_mode "interleave") (boot app reply))
    = Ok (INTERLEAVE (app_stp app))
  ∧ fst (run (get_stepper_drive_mode "microstep") (boot app reply))
    = Ok (MICROSTEP (app_stp app))
  ∧ NoDup [fst (run (get_stepper_drive_mode "double") (boot app reply));
           fst (run (get_stepper_drive_mode "single") (boot app reply));
           fst (run (get_stepper_drive_mode "interleave") (boot app reply));
           fst (run (get_stepper_drive_mode "microstep") (boot app reply))]
  ∧ (name ∉ ["double"; "single"; "interleave"; "microstep"] ->
     run (get_stepper_drive_mode name) (boot app reply)
     = run (get_stepper_drive_mode "double") (boot app reply)).
Proof.
  intros Hdistinct.
  pose proof (boot_drive_modes app reply) as Hm.
  rewrite !(get_stepper_drive_mode_run _ _ _ Hm). cbn [fst].
  assert (H4 : ∀ a b c d : Z,
    (({[ "double" := a; "single" := b; "interleave" := c; "microstep" := d ]}
        : gmap string Z) !! "double" = Some a)
    ∧ (({[ "double" := a; "single" := b; "interleave" := c; "microstep" := d ]}
        : gmap string Z) !! "single" = Some b)
    ∧ (({[ "double" := a; "single" := b; "interleave" := c; "microstep" := d ]}
        : gmap string Z) !! "interleave" = Some c)
    ∧ (({[ "double" := a; "single" := b; "interleave" := c; "microstep" := d ]}
        : gmap string Z) !! "microstep" = Some d)).
  { intros a b c d. repeat split; reflexivity. }
  destruct (H4 (DOUBLE (app_stp app)) (SINGLE (app_stp app))
              (INTERLEAVE (app_stp app)) (MICROSTEP (app_stp app)))
    as (Hd & Hs & Hi & Hmi).
  rewrite Hd, Hs, Hi, Hmi.
  repeat (split; [reflexivity|]).
  split.
  - assert (Hinj : Inj (=) (=) (@Ok Z)).
    { intros x y Hxy. injection Hxy as ->. reflexivity. }
    exact (NoDup_fmap_2 Ok _ Hdistinct).
  - intros Hname.
    rewrite !lookup_insert_ne, lookup_singleton_ne; [reflexivity|..];
      intros <-; apply Hname; apply (bool_decide_unpack _); vm_compute; exact I.
Qed.

Lemma drive_mode_lookup_witness :
  fst (run (get_stepper_drive_mode "double") (example_board true true [])) = Ok 2
  ∧ fst (run (get_stepper_drive_mode "bogus") (example_board true true [])) = Ok 2.
Proof.
  assert (Hdistinct : NoDup [DOUBLE stp_lib; SINGLE stp_lib;
                             INTERLEAVE stp_lib; MICROSTEP stp_lib]).
  { apply (bool_decide_unpack _). vm_compute. exact I. }
  destruct (drive_mode_lookup (example_app true true) (constant_reply []) "bogus"
              Hdistinct) as (Hdouble & _ & _ & _ & _ & Hother).
  unfold example_board. split.
  - exact Hdouble.
  - rewrite Hother; [exact Hdouble|].
    apply (bool_decide_unpack _). vm_compute. exact I.
Defined.

(** ** Further properties of the analog sampler *)

Lemma get_homing_sensor_voltage_valid (st : state) (d : SpiDev) :
  spi (fst st) = Some d ->
  run get_homing_sensor_voltage st =
    (Ok (adc_to_voltage
           (Z.shiftr (fold_left (fun a b => Z.shiftl a 8 + b)
                        (spi_reply (snd st) (spi_log (snd st)) (adc_frame 0)) 0) 1)),
     (fst st, mkWorld (next_id (snd st)) (pwm_log (snd st))
                (spi_log (snd st) ++ [adc_frame 0]) (spi_reply (snd st)))).
Proof.
  intros Hspi.
  unfold get_homing_sensor_voltage, mbind, M_bind, bind. cbn [run].
  rewrite (get_adc_by_channel_valid st 0 d Hspi) by (left; reflexivity).
  reflexivity.
Qed.

Lemma boot_spi (app : App) (reply : list (list Z) -> list Z -> list Z) :
  spi (fst (boot app reply)) = Some (mkSpiDev 0 spi_ch spi_bit_rate).
Proof.
  destruct app as [b1 b2 cfg lib]. destruct b1, b2; reflexivity.
Qed.

Lemma boot_spi_log (app : App) (reply : list (list Z) -> list Z -> list Z) :
  spi_log (snd (boot app reply)) = [].
Proof.
  destruct app as [b1 b2 cfg lib]. destruct b1, b2; reflexivity.
Qed.

Lemma omap_one {A B} (f : A -> option B) (x : A) :
  omap f [x] = match f x with Some y => [y] | None => [] end.
Proof. cbn. destruct (f x); reflexivity. Qed.

(** One facade call adds its frame, if it has one, to the frames on the bus. *)
Lemma after_call_spi_log (c : call) (st : state) (d : SpiDev) :
  spi (fst st) = Some d ->
  is_Some (stepper1 (fst st)) ->
  spi_log (snd (after_call c st)) = spi_log (snd st) ++ omap frame_of_call [c].
Proof.
  intros Hspi [o Ho]. rewrite omap_one.
  destruct c; unfold after_call, frame_of_call.
  - rewrite get_chevron_led_run. cbn [snd]. rewrite app_nil_r. reflexivity.
  - rewrite get_chevron_motor_run. cbn [snd]. rewrite app_nil_r. reflexivity.
  - rewrite (get_stepper_cached st o Ho). cbn [snd]. rewrite app_nil_r. reflexivity.
  - rewrite get_stepper_drive_mode_frame. rewrite app_nil_r. reflexivity.
  - destruct (decide (adc_ch ∈ [0; 1])) as [Hch|Hch].
    + rewrite (bool_decide_eq_true_2 _ Hch).
      rewrite (get_adc_by_channel_valid st adc_ch d Hspi) by (apply elem_of_01; exact Hch).
      reflexivity.
    + rewrite (bool_decide_eq_false_2 _ Hch).
      rewrite get_adc_by_channel_invalid by (rewrite elem_of_01 in Hch; tauto).
      cbn [snd]. rewrite app_nil_r. reflexivity.
  - rewrite (get_homing_sensor_voltage_valid st d Hspi). reflexivity.
Qed.

Lemma after_calls_spi_log (cs : list call) (st : state) (d : SpiDev) :
  spi (fst st) = Some d ->
  is_Some (stepper1 (fst st)) ->
  spi_log (snd (after_calls cs st)) = spi_log (snd st) ++ omap frame_of_call cs.
Proof.
  revert st. induction cs as [|c cs IH]; intros st Hspi Hst.
  - cbn. rewrite app_nil_r. reflexivity.
  - cbn [after_calls fold_left].
    destruct (after_call_same_board c st Hst) as (Hself & _).
    change (fold_left (fun st0 c0 => after_call c0 st0) cs (after_call c st))
      with (after_calls cs (after_call c st)).
    rewrite IH by (rewrite Hself; assumption).
    rewrite (after_call_spi_log c st d Hspi Hst).
    change (c :: cs) with ([c] ++ cs). rewrite omap_app, app_assoc. reflexivity.
Qed.

(** X1: on a constructed board, the frames sent on the SPI bus are exactly
    the frames of the sampler calls that pass the channel guard (the homing
    voltage samples channel 0), one per call and in the order of the calls;
    every frame ever sent is [0xC0, 0x00] or [0xE0, 0x00]. *)
Theorem spi_log_after_calls (app : App) (reply : list (list Z) -> list Z -> list Z)
    (cs : list call) :
  spi_log (snd (after_calls cs (boot app reply))) = omap frame_of_call cs
  ∧ ∀ f, f ∈ spi_log (snd (after_calls cs (boot app reply))) ->
         f = [0xC0; 0x00] ∨ f = [0xE0; 0x00].
Proof.
  assert (Hlog : spi_log (snd (after_calls cs (boot app reply))) = omap frame_of_call cs).
  { rewrite (after_calls_spi_log cs (boot app reply) _ (boot_spi app reply)
               (boot_stepper1_is_Some app reply)).
    rewrite boot_spi_log. reflexivity. }
  split; [exact Hlog|].
  intros f Hf. rewrite Hlog in Hf.
  apply list_elem_of_omap in Hf as (c & _ & Hc).
  destruct c; cbn in Hc; try discriminate.
  - case_bool_decide as Hch; [|discriminate].
    injection Hc as <-. apply elem_of_01 in Hch as [-> | ->]; [left|right]; reflexivity.
  - injection Hc as <-. left. reflexivity.
Qed.

Lemma land_high_low (b0 b1 : Z) :
  0 <= b1 <= 255 -> Z.land (Z.shiftl b0 7) (Z.shiftr b1 1) = 0.
Proof.
  intros Hb1. apply Z.bits_inj'. intros n Hn.
  rewrite Z.land_spec, Z.bits_0.
  destruct (Z.lt_ge_cases n 7) as [Hlow|Hhigh].
  - rewrite Z.shiftl_spec_low by lia. reflexivity.
  - rewrite Z.shiftr_spec by lia.
    destruct (Z.eq_dec b1 0) as [->|Hnz].
    + rewrite Z.bits_0. apply andb_false_r.
    + rewrite (Z.bits_above_log2 b1 (n + 1)); [apply andb_false_r|lia|].
      assert (Z.log2 b1 < 8) by (apply Z.log2_lt_pow2; lia). lia.
Qed.

Lemma decode_shift_or (b0 b1 : Z) :
  0 <= b1 <= 255 ->
  (b0 * 256 + b1) / 2 = Z.lor (Z.shiftl b0 7) (Z.shiftr b1 1).
Proof.
  intros Hb1.
  rewrite <- Z.lxor_lor by (apply land_high_low; exact Hb1).
  rewrite <- Z.add_nocarry_lxor by (apply land_high_low; exact Hb1).
  rewrite Z.shiftl_mul_pow2, Z.shiftr_div_pow2 by lia.
  change (2 ^ 7) with 128. change (2 ^ 1) with 2.
  Z.to_euclidean_division_equations. lia.
Qed.

(** X2: the value decoded from a two-byte reply is
    [(b0 << 7) | (b1 >> 1)], and the lowest bit of the second byte is all
    that the decoding drops: two replies give the same value exactly when
    their first bytes are equal and their second bytes agree above bit 0. *)
Theorem decode_drops_only_last_bit (st st' : state) (adc_ch adc_ch' b0 b1 c0 c1 : Z)
    (d d' : SpiDev) :
  spi (fst st) = Some d -> spi (fst st') = Some d' ->
  adc_ch = 0 ∨ adc_ch = 1 -> adc_ch' = 0 ∨ adc_ch' = 1 ->
  spi_reply (snd st) (spi_log (snd st)) (adc_frame adc_ch) = [b0; b1] ->
  spi_reply (snd st') (spi_log (snd st')) (adc_frame adc_ch') = [c0; c1] ->
  0 <= b0 <= 255 -> 0 <= b1 <= 255 -> 0 <= c0 <= 255 -> 0 <= c1 <= 255 ->
  fst (run (get_adc_by_channel adc_ch) st) = Ok (Z.lor (Z.shiftl b0 7) (Z.shiftr b1 1))
  ∧ (fst (run (get_adc_by_channel adc_ch) st) = fst (run (get_adc_by_channel adc_ch') st')
     ↔ b0 = c0 ∧ Z.shiftr b1 1 = Z.shiftr c1 1).
Proof.
  intros Hspi Hspi' Hch Hch' Hreply Hreply' Hb0 Hb1 Hc0 Hc1.
  rewrite (get_adc_by_channel_valid st adc_ch d Hspi Hch), Hreply.
  rewrite (get_adc_by_channel_valid st' adc_ch' d' Hspi' Hch'), Hreply'.
  cbn [fst]. rewrite !decode_two_bytes.
  split.
  - rewrite decode_shift_or by exact Hb1. reflexivity.
  - rewrite !Z.shiftr_div_pow2 by lia. change (2 ^ 1) with 2. split.
    + intros Heq. injection Heq as Heq.
      Z.to_euclidean_division_equations. lia.
    + intros [-> Heq]. f_equal.
      Z.to_euclidean_division_equations. lia.
Qed.

Lemma decode_drops_only_last_bit_witness :
  fst (run (get_adc_by_channel 0) (example_board false false [3; 254]))
    = Ok (Z.lor (Z.shiftl 3 7) (Z.shiftr 254 1))
  ∧ (fst (run (get_adc_by_channel 0) (example_board false false [3; 254]))
     = fst (run (get_adc_by_channel 1) (example_board true true [3; 255]))
     ↔ 3 = 3 ∧ Z.shiftr 254 1 = Z.shiftr 255 1).
Proof.
  apply (decode_drops_only_last_bit
           (example_board false false [3; 254]) (example_board true true [3; 255])
           0 1 3 254 3 255
           (mkSpiDev 0 spi_ch spi_bit_rate) (mkSpiDev 0 spi_ch spi_bit_rate));
    first [reflexivity | lia | (left; reflexivity) | (right; reflexivity)].
Defined.

(** X3: every fifteen-bit value is decoded from the reply that carries it:
    when the bus answers [v >> 7, (v & 0x7F) << 1], two bytes in 0..255, the
    sampler returns v. *)
Theorem decode_of_encoded (st : state) (adc_ch v : Z) (d : SpiDev) :
  spi (fst st) = Some d ->
  adc_ch = 0 ∨ adc_ch = 1 ->
  0 <= v < 2 ^ 15 ->
  spi_reply (snd st) (spi_log (snd st)) (adc_frame adc_ch)
    = [Z.shiftr v 7; Z.shiftl (Z.land v 0x7F) 1] ->
  fst (run (get_adc_by_channel adc_ch) st) = Ok v
  ∧ 0 <= Z.shiftr v 7 <= 255
  ∧ 0 <= Z.shiftl (Z.land v 0x7F) 1 <= 255.
Proof.
  intros Hspi Hch Hv Hreply.
  rewrite (get_adc_by_channel_valid st adc_ch d Hspi Hch), Hreply.
  cbn [fst]. rewrite decode_two_bytes.
  change 0x7F with (Z.ones 7). rewrite Z.land_ones by lia.
  rewrite Z.shiftr_div_pow2, Z.shiftl_mul_pow2 by lia.
  change (2 ^ 15) with 32768 in Hv. change (2 ^ 7) with 128. change (2 ^ 1) with 2.
  split; [f_equal|split]; Z.to_euclidean_division_equations; lia.
Qed.

Lemma decode_of_encoded_witness :
  fst (run (get_adc_by_channel 0) (example_board false false [7; 254])) = Ok 1023
  ∧ 0 <= Z.shiftr 1023 7 <= 255
  ∧ 0 <= Z.shiftl (Z.land 1023 0x7F) 1 <= 255.
Proof.
  apply (decode_of_encoded (example_board false false [7; 254]) 0 1023
           (mkSpiDev 0 spi_ch spi_bit_rate)).
  - reflexivity.
  - left. reflexivity.
  - lia.
  - reflexivity.
Defined.

Lemma fold_bytes_bound (l : list Z) (a : Z) :
  0 <= a ->
  Forall (fun b => 0 <= b <= 255) l ->
  0 <= fold_left (fun a b => Z.shiftl a 8 + b) l a < (a + 1) * 256 ^ Z.of_nat (length l).
Proof.
  revert a. induction l as [|b l IH]; intros a Ha Hl.
  - cbn. lia.
  - apply Forall_cons in Hl as [Hb Hl]. cbn [fold_left length].
    rewrite Z.shiftl_mul_pow2 by lia. change (2 ^ 8) with 256.
    specialize (IH (a * 256 + b) ltac:(lia) Hl).
    rewrite Nat2Z.inj_succ, Z.pow_succ_r by lia.
    assert (0 < 256 ^ Z.of_nat (length l)) by (apply Z.pow_pos_nonneg; lia).
    nia.
Qed.

(** X4: whatever the length of the reply, the sampler returns and does not
    raise: for a reply of n bytes in 0..255 the value v is non-negative with
    [2 * v < 256 ^ n]; an empty reply gives 0. *)
Theorem get_adc_by_channel_any_reply (st : state) (adc_ch : Z) (l : list Z) (d : SpiDev) :
  spi (fst st) = Some d ->
  adc_ch = 0 ∨ adc_ch = 1 ->
  spi_reply (snd st) (spi_log (snd st)) (adc_frame adc_ch) = l ->
  Forall (fun b => 0 <= b <= 255) l ->
  ∃ v, fst (run (get_adc_by_channel adc_ch) st) = Ok v
       ∧ 0 <= v
       ∧ 2 * v < 256 ^ Z.of_nat (length l)
       ∧ (l = [] -> v = 0).
Proof.
  intros Hspi Hch Hreply Hl.
  rewrite (get_adc_by_channel_valid st adc_ch d Hspi Hch), Hreply.
  eexists. split; [reflexivity|].
  pose proof (fold_bytes_bound l 0 ltac:(lia) Hl) as Hbound.
  rewrite Z.shiftr_div_pow2 by lia. change (2 ^ 1) with 2.
  split; [|split].
  - Z.to_euclidean_division_equations. lia.
  - Z.to_euclidean_division_equations. lia.
  - intros ->. reflexivity.
Qed.

Lemma get_adc_by_channel_any_reply_witness :
  ∃ v, fst (run (get_adc_by_channel 1) (example_board false false [1; 2; 3])) = Ok v
       ∧ 0 <= v
       ∧ 2 * v < 256 ^ Z.of_nat (length [1; 2; 3])
       ∧ ([1; 2; 3] = [] -> v = 0).
Proof.
  apply (get_adc_by_channel_any_reply (example_board false false [1; 2; 3]) 1 [1; 2; 3]
           (mkSpiDev 0 spi_ch spi_bit_rate)).
  - reflexivity.
  - right. reflexivity.
  - reflexivity.
  - repeat constructor; lia.
Defined.

Lemma forall_from_spec (P : Z -> bool) (n : nat) (r k : Z) :
  forall_from P r n = true -> r <= k < r + Z.of_nat n -> P k = true.
Proof.
  revert r. induction n as [|n IH]; intros r Hall Hk; [lia|].
  cbn [forall_from] in Hall. apply andb_true_iff in Hall as [Hr Hrest].
  destruct (Z.eq_dec k r) as [->|Hne]; [exact Hr|].
  apply (IH (r + 1) Hrest). lia.
Qed.

(** X5: over the whole range of the sampler (raw values 0..32767), the
    voltage computed by [adc_to_voltage] is at least -1 and grows strictly
    from each raw value to the next, so a larger raw value never gives a
    smaller voltage. *)
Theorem adc_to_voltage_increasing (r : Z) :
  0 <= r < 2 ^ 15 - 1 ->
  PrimFloat.leb (-1)%float (adc_to_voltage r) = true
  ∧ PrimFloat.ltb (adc_to_voltage r) (adc_to_voltage (r + 1)) = true.
Proof.
  intros Hr. change (2 ^ 15 - 1) with 32767 in Hr.
  apply andb_true_iff.
  apply (forall_from_spec
           (fun r => PrimFloat.leb (-1)%float (adc_to_voltage r)
                     && PrimFloat.ltb (adc_to_voltage r) (adc_to_voltage (r + 1)))
           (Z.to_nat 32767) 0 r); [|lia].
  vm_compute. reflexivity.
Qed.

Lemma adc_to_voltage_increasing_witness :
  PrimFloat.leb (-1)%float (adc_to_voltage 511) = true
  ∧ PrimFloat.ltb (adc_to_voltage 511) (adc_to_voltage (511 + 1)) = true.
Proof.
  apply (adc_to_voltage_increasing 511). vm_compute. split; [discriminate|reflexivity].
Defined.

(** ** Further properties of the facade *)


Lemma count_writes_app (ch : channel) (l l' : list pwm_write) :
  count_writes ch (l ++ l') = (count_writes ch l + count_writes ch l')%nat.
Proof.
  unfold count_writes. rewrite filter_app, length_app. reflexivity.
Qed.








(** ** Further properties of the channel tables *)

Ltac channel_cases c :=
  destruct c as [|?p|?p]; try discriminate;
  do 3 (match goal with
        | p : positive |- _ => destruct p as [?p|?p|]; try discriminate
        | _ => idtac
        end).

(** X10: on a constructed board two chevrons are handed the same LED object
    exactly when their LED remap entries name the same channel, and the same
    motor object exactly when their motor remap entries do: every channel has
    an object of its own, and chevrons mapped to one channel share it. *)
Theorem chevrons_share_handle_iff_same_channel (app : App)
    (reply : list (list Z) -> list Z -> list Z) (n1 n2 c1 c2 : Z) :
  (app_board_cfg app !! led_key n1 = Some c1 ->
   app_board_cfg app !! led_key n2 = Some c2 ->
   ∀ h1 h2, fst (run (get_chevron_led n1) (boot app reply)) = Ok h1 ->
            fst (run (get_chevron_led n2) (boot app reply)) = Ok h2 ->
            (h1 = h2 ↔ c1 = c2))
  ∧ (app_board_cfg app !! motor_key n1 = Some c1 ->
     app_board_cfg app !! motor_key n2 = Some c2 ->
     ∀ h1 h2, fst (run (get_chevron_motor n1) (boot app reply)) = Ok h1 ->
              fst (run (get_chevron_motor n2) (boot app reply)) = Ok h2 ->
              (h1 = h2 ↔ c1 = c2)).
Proof.
  split; intros H1 H2 h1 h2.
  - rewrite !get_chevron_led_run. unfold lookup_channel. cbn [fst].
    rewrite boot_board_cfg, H1, H2, boot_led_channels, !dict7_lookup.
    intros Hok1 Hok2.
    channel_cases c1; channel_cases c2;
      injection Hok1 as <-; injection Hok2 as <-;
      split; intros Heq; first [reflexivity | discriminate].
  - rewrite !get_chevron_motor_run. unfold lookup_channel. cbn [fst].
    rewrite boot_board_cfg, H1, H2, boot_motor_channels.
    destruct (app_chevron_motors_enable app); rewrite !dict7_lookup;
      intros Hok1 Hok2;
      channel_cases c1; channel_cases c2;
      injection Hok1 as <-; injection Hok2 as <-;
      split; intros Heq; first [reflexivity | discriminate].
Qed.

Lemma chevrons_share_handle_iff_same_channel_witness :
  (∀ h1 h2, fst (run (get_chevron_led 1) (boot (example_app true true) (constant_reply [])))
              = Ok h1 ->
            fst (run (get_chevron_led 3) (boot (example_app true true) (constant_reply [])))
              = Ok h2 ->
            (h1 = h2 ↔ 1 = 3))
  ∧ (∀ h1 h2, fst (run (get_chevron_motor 1) (boot (example_app true true) (constant_reply [])))
                = Ok h1 ->
              fst (run (get_chevron_motor 3) (boot (example_app true true) (constant_reply [])))
                = Ok h2 ->
              (h1 = h2 ↔ 1 = 5)).
Proof.
  split.
  - apply (proj1 (chevrons_share_handle_iff_same_channel (example_app true true)
                    (constant_reply []) 1 3 1 3)); reflexivity.
  - apply (proj2 (chevrons_share_handle_iff_same_channel (example_app true true)
                    (constant_reply []) 1 3 1 5)); reflexivity.
Defined.


Lemma boot_attrs (app : App) (reply : list (list Z) -> list Z -> list Z) :
  attrs (fst (boot app reply))
  = if app_chevron_motors_enable app then
      <["_motor4" := DCMotor 6 (_pca_1_addr, 2) (_pca_1_addr, 1)]>
      (<["_motor4" := DCMotor 5 (_pca_1_addr, 3) (_pca_1_addr, 4)]>
      (<["_motor4" := DCMotor 4 (_pca_1_addr, 14) (_pca_1_addr, 13)]>
      (<["_motor4" := DCMotor 3 (_pca_2_addr, 2) (_pca_2_addr, 1)]>
      (<["_motor3" := DCMotor 2 (_pca_2_addr, 5) (_pca_2_addr, 4)]>
      (<["_motor2" := DCMotor 1 (_pca_2_addr, 8) (_pca_2_addr, 7)]>
      (<["_motor1" := DCMotor 0 (_pca_2_addr, 11) (_pca_2_addr, 10)]> ∅))))))
    else ∅.
Proof.
  destruct app as [b1 b2 cfg lib]. destruct b1, b2; reflexivity.
Qed.

(** X12: the attribute names of the motors collide.  [motor4], [motor5],
    [motor6] and [motor7] all store their object under ["_motor4"], so after
    the construction of a board with motors the attributes are ["_motor1"] to
    ["_motor4"] only, and ["_motor4"] holds the object of motor channel 7,
    not the one of motor channel 4. *)
Theorem motor_attributes_share_a_name (app : App)
    (reply : list (list Z) -> list Z -> list Z) :
  app_chevron_motors_enable app = true ->
  ∃ m, motor_channels (fst (boot app reply)) = Some m
       ∧ dom (attrs (fst (boot app reply)))
         = ({[ "_motor1"; "_motor2"; "_motor3"; "_motor4" ]} : gset string)
       ∧ attrs (fst (boot app reply)) !! "_motor1" = m !! 1
       ∧ attrs (fst (boot app reply)) !! "_motor2" = m !! 2
       ∧ attrs (fst (boot app reply)) !! "_motor3" = m !! 3
       ∧ attrs (fst (boot app reply)) !! "_motor4" = m !! 7
       ∧ attrs (fst (boot app reply)) !! "_motor4" ≠ m !! 4.
Proof.
  intros Hon. rewrite boot_motor_channels, boot_attrs, Hon.
  eexists. split; [reflexivity|].
  split; [rewrite !dom_insert_L, dom_empty_L; set_solver|].
  repeat (split; [vm_compute; reflexivity|]).
  vm_compute. discriminate.
Qed.

Lemma motor_attributes_share_a_name_witness :
  ∃ m, motor_channels (fst (boot (example_app false true) (constant_reply []))) = Some m
       ∧ dom (attrs (fst (boot (example_app false true) (constant_reply []))))
         = ({[ "_motor1"; "_motor2"; "_motor3"; "_motor4" ]} : gset string)
       ∧ attrs (fst (boot (example_app false true) (constant_reply []))) !! "_motor1" = m !! 1
       ∧ attrs (fst (boot (example_app false true) (constant_reply []))) !! "_motor2" = m !! 2
       ∧ attrs (fst (boot (example_app false true) (constant_reply []))) !! "_motor3" = m !! 3
       ∧ attrs (fst (boot (example_app false true) (constant_reply []))) !! "_motor4" = m !! 7
       ∧ attrs (fst (boot (example_app false true) (constant_reply []))) !! "_motor4" ≠ m !! 4.
Proof.
  apply (motor_attributes_share_a_name (example_app false true) (constant_reply [])).
  reflexivity.
Defined.

Lemma reinit_returns (app : App) (reply : list (list Z) -> list Z -> list Z) :
  fst (run init_motor_hardware (boot app reply)) = Ok tt.
Proof.
  destruct app as [b1 b2 cfg lib]. destruct b1, b2; reflexivity.
Qed.

Lemma reinit_motor_channels (app : App) (reply : list (list Z) -> list Z -> list Z) :
  motor_channels (fst (snd (run init_motor_hardware (boot app reply))))
  = Some (if app_chevron_motors_enable app then
            {[ 1 := DCMotor 15 (_pca_2_addr, 11) (_pca_2_addr, 10);
               2 := DCMotor 16 (_pca_2_addr, 8) (_pca_2_addr, 7);
               3 := DCMotor 17 (_pca_2_addr, 5) (_pca_2_addr, 4);
               4 := DCMotor 18 (_pca_2_addr, 2) (_pca_2_addr, 1);
               5 := DCMotor 19 (_pca_1_addr, 14) (_pca_1_addr, 13);
               6 := DCMotor 20 (_pca_1_addr, 3) (_pca_1_addr, 4);
               7 := DCMotor 21 (_pca_1_addr, 2) (_pca_1_addr, 1) ]}
          else
            {[ 1 := DCMotorSim 15; 2 := DCMotorSim 16; 3 := DCMotorSim 17;
               4 := DCMotorSim 18; 5 := DCMotorSim 19; 6 := DCMotorSim 20;
               7 := DCMotorSim 21 ]}).
Proof.
  destruct app as [b1 b2 cfg lib]. destruct b1, b2; reflexivity.
Qed.

Lemma reinit_stepper1 (app : App) (reply : list (list Z) -> list Z -> list Z) :
  stepper1 (fst (snd (run init_motor_hardware (boot app reply))))
  = Some (if app_stepper_motor_enable app then
            StepperMotor 7 (_pca_1_addr, 8) (_pca_1_addr, 7) (_pca_1_addr, 9)
              (_pca_1_addr, 10) _stepper_microsteps
          else StepperSim 22).
Proof.
  destruct app as [b1 b2 cfg lib]. destruct b1, b2; reflexivity.
Qed.

Lemma reinit_pwm_log (app : App) (reply : list (list Z) -> list Z -> list Z) :
  pwm_log (snd (snd (run init_motor_hardware (boot app reply))))
  = pwm_log (snd (boot app reply))
    ++ (if app_chevron_motors_enable app then
          [mkWrite _pca_2_addr 9 0xFFFF; mkWrite _pca_2_addr 6 0xFFFF;
           mkWrite _pca_2_addr 3 0xFFFF; mkWrite _pca_2_addr 0 0xFFFF;
           mkWrite _pca_1_addr 12 0xFFFF; mkWrite _pca_1_addr 5 0xFFFF;
           mkWrite _pca_1_addr 0 0xFFFF]
        else []).
Proof.
  destruct app as [b1 b2 cfg lib]. destruct b1, b2; reflexivity.
Qed.

(** X13: running [init_motor_hardware] again on a constructed board returns
    and replaces the handle of every motor channel by a new object; with the
    motors enabled each motor enable channel is written a second time.  The
    stepper's enable channels are not written again: an enabled stepper keeps
    its handle, while a disabled one gets a new simulated handle. *)
Theorem init_motor_hardware_again (app : App)
    (reply : list (list Z) -> list Z -> list Z) (c : Z) :
  1 <= c <= 7 ->
  fst (run init_motor_hardware (boot app reply)) = Ok tt
  ∧ (∃ m0 m1 h0 h1,
       motor_channels (fst (boot app reply)) = Some m0
       ∧ motor_channels (fst (snd (run init_motor_hardware (boot app reply)))) = Some m1
       ∧ m0 !! c = Some h0 ∧ m1 !! c = Some h1 ∧ h0 ≠ h1)
  ∧ (∃ e, enable_channel c = Some e
          ∧ count_writes e (pwm_log (snd (snd (run init_motor_hardware (boot app reply)))))
            = (2 * count_writes e (pwm_log (snd (boot app reply))))%nat)
  ∧ (∃ s0 s1,
       stepper1 (fst (boot app reply)) = Some s0
       ∧ stepper1 (fst (snd (run init_motor_hardware (boot app reply)))) = Some s1
       ∧ (s0 = s1 ↔ app_stepper_motor_enable app = true))
  ∧ count_writes (_pca_1_addr, 6)
      (pwm_log (snd (snd (run init_motor_hardware (boot app reply)))))
    = count_writes (_pca_1_addr, 6) (pwm_log (snd (boot app reply)))
  ∧ count_writes (_pca_1_addr, 11)
      (pwm_log (snd (snd (run init_motor_hardware (boot app reply)))))
    = count_writes (_pca_1_addr, 11) (pwm_log (snd (boot app reply))).
Proof.
  intros Hc.
  rewrite reinit_returns, reinit_motor_channels, reinit_stepper1, reinit_pwm_log.
  rewrite boot_motor_channels, boot_stepper1, boot_pwm_log.
  rewrite !count_writes_app.
  split; [reflexivity|].
  destruct app as [b1 b2 cfg lib].
  cbn [app_chevron_motors_enable app_stepper_motor_enable].
  split; [|split; [|split; [|split]]].
  - destruct (one_to_seven c Hc) as [->|[->|[->|[->|[->|[->| ->]]]]]];
      destruct b2; do 4 eexists;
      (split; [reflexivity|]); (split; [reflexivity|]);
      rewrite !dict7_lookup;
      (split; [reflexivity|]); (split; [reflexivity|]); discriminate.
  - destruct (one_to_seven c Hc) as [->|[->|[->|[->|[->|[->| ->]]]]]];
      destruct b1, b2; eexists; (split; [reflexivity|]); vm_compute; reflexivity.
  - do 2 eexists. split; [reflexivity|]. split; [reflexivity|].
    destruct b1; split; intros Heq; first [reflexivity | discriminate].
  - destruct b1, b2; vm_compute; reflexivity.
  - destruct b1, b2; vm_compute; reflexivity.
Qed.

Lemma init_motor_hardware_again_witness :
  fst (run init_motor_hardware (boot (example_app true true) (constant_reply []))) = Ok tt
  ∧ (∃ m0 m1 h0 h1,
       motor_channels (fst (boot (example_app true true) (constant_reply []))) = Some m0
       ∧ motor_channels (fst (snd (run init_motor_hardware
                                     (boot (example_app true true) (constant_reply [])))))
         = Some m1
       ∧ m0 !! 2 = Some h0 ∧ m1 !! 2 = Some h1 ∧ h0 ≠ h1)
  ∧ (∃ e, enable_channel 2 = Some e
          ∧ count_writes e
              (pwm_log (snd (snd (run init_motor_hardware
                                    (boot (example_app true true) (constant_reply []))))))
            = (2 * count_writes e
                     (pwm_log (snd (boot (example_app true true) (constant_reply [])))))%nat)
  ∧ (∃ s0 s1,
       stepper1 (fst (boot (example_app true true) (constant_reply []))) = Some s0
       ∧ stepper1 (fst (snd (run init_motor_hardware
                               (boot (example_app true true) (constant_reply [])))))
         = Some s1
       ∧ (s0 = s1 ↔ app_stepper_motor_enable (example_app true true) = true))
  ∧ count_writes (_pca_1_addr, 6)
      (pwm_log (snd (snd (run init_motor_hardware
                            (boot (example_app true true) (constant_reply []))))))
    = count_writes (_pca_1_addr, 6)
        (pwm_log (snd (boot (example_app true true) (constant_reply []))))
  ∧ count_writes (_pca_1_addr, 11)
      (pwm_log (snd (snd (run init_motor_hardware
                            (boot (example_app true true) (constant_reply []))))))
    = count_writes (_pca_1_addr, 11)
        (pwm_log (snd (boot (example_app true true) (constant_reply [])))).
Proof.
  apply (init_motor_hardware_again (example_app true true) (constant_reply []) 2).
  lia.
Defined.

(** ** The remap keys and the chevron table *)

Lemma string_length_app (s t : string) :
  String.length (s +:+ t) = (String.length s + String.length t)%nat.
Proof.
  induction s as [|a s IH]; [reflexivity|].
  change (S (String.length (s +:+ t)) = S (String.length s + String.length t)).
  rewrite IH. reflexivity.
Qed.

Lemma string_app_assoc (s t u : string) : (s +:+ t) +:+ u = s +:+ (t +:+ u).
Proof.
  induction s as [|a s IH]; [reflexivity|].
  change (String a ((s +:+ t) +:+ u) = String a (s +:+ (t +:+ u))).
  rewrite IH. reflexivity.
Qed.

(** Two concatenations with tails of the same length are equal only when the
    heads are equal and the tails are equal. *)
Lemma string_app_same_length (s1 s2 t1 t2 : string) :
  String.length t1 = String.length t2 ->
  s1 +:+ t1 = s2 +:+ t2 -> s1 = s2 ∧ t1 = t2.
Proof.
  intros Hlen. revert s2.
  induction s1 as [|a s1 IH]; intros [|b s2] Heq.
  - split; [reflexivity|exact Heq].
  - exfalso. change (t1 = String b (s2 +:+ t2)) in Heq.
    apply (f_equal String.length) in Heq.
    change (String.length t1 = S (String.length (s2 +:+ t2))) in Heq.
    rewrite string_length_app in Heq. lia.
  - exfalso. change (String a (s1 +:+ t1) = t2) in Heq.
    apply (f_equal String.length) in Heq.
    change (S (String.length (s1 +:+ t1)) = String.length t2) in Heq.
    rewrite string_length_app in Heq. lia.
  - change (String a (s1 +:+ t1) = String b (s2 +:+ t2)) in Heq.
    injection Heq as -> Heq. destruct (IH s2 Heq) as [-> ->].
    split; reflexivity.
Qed.

Lemma remap_keys_facts (n m : Z) :
  (led_key n = led_key m ↔ n = m)
  ∧ (motor_key n = motor_key m ↔ n = m)
  ∧ led_key n ≠ motor_key m.
Proof.
  unfold led_key, motor_key.
  split; [|split].
  - split; [|intros ->; reflexivity].
    intros Heq. apply (inj (String.app "chevron_")) in Heq.
    apply string_app_same_length in Heq as [Heq _]; [|reflexivity].
    exact (inj pretty _ _ Heq).
  - split; [|intros ->; reflexivity].
    intros Heq. apply (inj (String.app "chevron_")) in Heq.
    apply string_app_same_length in Heq as [Heq _]; [|reflexivity].
    exact (inj pretty _ _ Heq).
  - intros Heq. apply (inj (String.app "chevron_")) in Heq.
    change "_led_channel" with ("_le" +:+ "d_channel") in Heq.
    change "_motor_channel" with ("_moto" +:+ "r_channel") in Heq.
    rewrite <- !string_app_assoc in Heq.
    apply string_app_same_length in Heq as [_ Heq]; [|reflexivity].
    discriminate.
Qed.

(** X14: the remap keys are unambiguous.  Two chevron numbers have the same
    LED key only when they are equal, likewise for the motor key, and no LED
    key is a motor key: every chevron and role reads an entry of its own. *)
Theorem remap_keys_distinct (n m : Z) :
  (led_key n = led_key m ↔ n = m)
  ∧ (motor_key n = motor_key m ↔ n = m)
  ∧ led_key n ≠ motor_key m.
Proof.
  exact (remap_keys_facts n m).
Qed.

Lemma chevrons_entries :
  map_to_list chevrons
  ≡ₚ [(1, mkChevron (Some 21) 3); (2, mkChevron (Some 16) 4); (3, mkChevron (Some 20) 5);
      (4, mkChevron (Some 26) 6); (5, mkChevron (Some 6) 7); (6, mkChevron (Some 13) 8);
      (7, mkChevron (Some 19) 9); (8, mkChevron None 10); (9, mkChevron None 11)].
Proof.
  unfold chevrons.
  repeat (rewrite map_to_list_insert;
          [apply Permutation_skip
          |rewrite ?lookup_insert_ne, ?lookup_singleton_ne by discriminate; reflexivity]).
  rewrite map_to_list_singleton. reflexivity.
Qed.

Lemma chevrons_lookup (n : Z) (c : Chevron) :
  chevrons !! n = Some c ->
  (n, c) ∈ [(1, mkChevron (Some 21) 3); (2, mkChevron (Some 16) 4);
            (3, mkChevron (Some 20) 5); (4, mkChevron (Some 26) 6);
            (5, mkChevron (Some 6) 7); (6, mkChevron (Some 13) 8);
            (7, mkChevron (Some 19) 9); (8, mkChevron None 10);
            (9, mkChevron None 11)].
Proof.
  intros Hn. rewrite <- chevrons_entries. apply elem_of_map_to_list. exact Hn.
Qed.

Ltac chevron_cases H :=
  repeat (apply elem_of_cons in H as [H|H]; [injection H as -> ->|]);
  [..|apply elem_of_nil in H; destruct H].

(** X15: in the chevron table of chevrons.py every chevron n is one of 1..9
    and its motor number is n + 2; the chevrons without an LED pin are 8 and
    9; and two different chevrons never have the same motor number nor, when
    they have an LED, the same LED pin. *)
Theorem chevrons_table (n n' : Z) (c c' : Chevron) :
  chevrons !! n = Some c ->
  chevrons !! n' = Some c' ->
  1 <= n <= 9
  ∧ motor_number c = n + 2
  ∧ (led_gpio c = None ↔ 8 <= n)
  ∧ (n ≠ n' -> motor_number c ≠ motor_number c'
               ∧ (is_Some (led_gpio c) -> led_gpio c ≠ led_gpio c')).
Proof.
  intros Hn Hn'.
  apply chevrons_lookup in Hn. apply chevrons_lookup in Hn'.
  chevron_cases Hn; cbn [motor_number led_gpio];
    (split; [lia|]); (split; [reflexivity|]);
    (split; [split; [intros ?; first [discriminate | lia] | intros ?; first [reflexivity | lia]]|]);
    intros Hne; chevron_cases Hn'; cbn [motor_number led_gpio];
    first [contradiction Hne; reflexivity
          | split; [discriminate | intros [? ?]; discriminate]].
Qed.

Lemma chevrons_table_witness :
  1 <= 3 <= 9
  ∧ motor_number (mkChevron (Some 20) 5) = 3 + 2
  ∧ (led_gpio (mkChevron (Some 20) 5) = None ↔ 8 <= 3)
  ∧ (3 ≠ 8 -> motor_number (mkChevron (Some 20) 5) ≠ motor_number (mkChevron None 10)
              ∧ (is_Some (led_gpio (mkChevron (Some 20) 5)) ->
                 led_gpio (mkChevron (Some 20) 5) ≠ led_gpio (mkChevron None 10))).
Proof.
  apply (chevrons_table 3 8 (mkChevron (Some 20) 5) (mkChevron None 10)); reflexivity.
Defined.

(** ** Kinds of handles and the effect of a remap entry *)

(** X16: on a constructed board every lookup hands out a handle of its own
    kind: [get_chevron_led] an LED on one of the pins 22, 25, 5, 19, 26, 21,
    20; [get_chevron_motor] a motor object when [chevron_motors_enable] is
    set and a simulated motor otherwise; [get_stepper] a stepper object when
    [stepper_motor_enable] is set and a simulated stepper otherwise. *)
Theorem lookups_return_their_kind (app : App)
    (reply : list (list Z) -> list Z -> list Z) (n : Z) (h : obj) :
  (fst (run (get_chevron_led n) (boot app reply)) = Ok h ->
   ∃ id pin, h = LED id pin ∧ pin ∈ [22; 25; 5; 19; 26; 21; 20])
  ∧ (fst (run (get_chevron_motor n) (boot app reply)) = Ok h ->
     if app_chevron_motors_enable app
     then ∃ id p q, h = DCMotor id p q
     else ∃ id, h = DCMotorSim id)
  ∧ (fst (run get_stepper (boot app reply)) = Ok h ->
     if app_stepper_motor_enable app
     then ∃ id a1 a2 b1 b2 ms, h = StepperMotor id a1 a2 b1 b2 ms
     else ∃ id, h = StepperSim id).
Proof.
  split; [|split].
  - rewrite get_chevron_led_run. unfold lookup_channel. cbn [fst].
    rewrite boot_board_cfg, boot_led_channels.
    destruct (app_board_cfg app !! led_key n) as [c|]; [|discriminate].
    rewrite dict7_lookup. intros Hok.
    channel_cases c; injection Hok as <-; do 2 eexists;
      (split; [reflexivity|]); rewrite !elem_of_cons; tauto.
  - rewrite get_chevron_motor_run. unfold lookup_channel. cbn [fst].
    rewrite boot_board_cfg, boot_motor_channels.
    destruct (app_board_cfg app !! motor_key n) as [c|]; [|discriminate].
    destruct (app_chevron_motors_enable app); rewrite dict7_lookup; intros Hok;
      channel_cases c; injection Hok as <-; repeat eexists.
  - rewrite (get_stepper_cached _ _ (boot_stepper1 app reply)). cbn [fst].
    intros Hok. injection Hok as <-.
    destruct (app_stepper_motor_enable app); repeat eexists.
Qed.

Lemma lookups_return_their_kind_witness :
  ∃ id pin, LED 10 5 = LED id pin ∧ pin ∈ [22; 25; 5; 19; 26; 21; 20].
Proof.
  apply (proj1 (lookups_return_their_kind (example_app true true) (constant_reply [])
                  3 (LED 10 5))).
  reflexivity.
Defined.

(** X17: a remap entry selects the channel and nothing else.  When the motor
    entry of chevron n is set to c before the board is constructed,
    [get_chevron_motor n] gives what the motor channel table holds under c
    (KeyError when it holds nothing there); the motor lookups of the other
    chevrons and the LED lookups of all chevrons give what they gave without
    that entry. *)
Theorem remap_entry_selects_channel (app : App)
    (reply : list (list Z) -> list Z -> list Z) (n c k : Z) :
  (∃ m, motor_channels (fst (boot app reply)) = Some m
        ∧ fst (run (get_chevron_motor n)
                 (boot (with_board_cfg (<[motor_key n := c]> (app_board_cfg app)) app) reply))
          = match m !! c with
            | Some h => Ok h
            | None => Raise KeyError
            end)
  ∧ (k ≠ n ->
     fst (run (get_chevron_motor k)
            (boot (with_board_cfg (<[motor_key n := c]> (app_board_cfg app)) app) reply))
     = fst (run (get_chevron_motor k) (boot app reply)))
  ∧ fst (run (get_chevron_led k)
           (boot (with_board_cfg (<[motor_key n := c]> (app_board_cfg app)) app) reply))
    = fst (run (get_chevron_led k) (boot app reply)).
Proof.
  rewrite !get_chevron_motor_run, !get_chevron_led_run. unfold lookup_channel. cbn [fst].
  rewrite !boot_board_cfg, !boot_motor_channels, !boot_led_channels.
  cbn [with_board_cfg app_board_cfg app_chevron_motors_enable].
  split; [|split].
  - eexists. split; [reflexivity|]. rewrite lookup_insert_eq. reflexivity.
  - intros Hk. rewrite lookup_insert_ne; [reflexivity|].
    intros Heq. apply Hk. symmetry. apply (remap_keys_facts n k). exact Heq.
  - rewrite lookup_insert_ne; [reflexivity|].
    intros Heq. symmetry in Heq. exact (proj2 (proj2 (remap_keys_facts k n)) Heq).
Qed.
